(** * streets_gl: the cascaded shadow-map pass and the water mask object

    A shallow embedding of [src/app/render/passes/ShadowMappingPass.ts] and of
    the [WaterMask] scene object.

    - The settings handler and [setSize] are state transformers on the part
      of the world the pass can reach (the CSM object and the descriptor of
      the [ShadowMaps] resource).
    - [render] and its four private helpers run in a writer monad with
      exceptions: the trace is the sequence of commands sent to the renderer
      and to the materials, the exception is the [TypeError] JavaScript
      raises when a method is called on [null].
    - Matrices, numbers and textures belong to libraries outside of the
      files studied here; they are kept abstract behind the class
      [Numerics]. *)

From Stdlib Require Import List ZArith String Bool Lia Arith.
Import ListNotations.
Local Open Scope string_scope.
Local Open Scope Z_scope.
Local Open Scope list_scope.

Set Implicit Arguments.

(** ** Collaborators kept abstract *)

(** [Mat4] with [Mat4.multiply] (~/lib/math/Mat4), JavaScript numbers with
    their product, and texture handles. *)
Class Numerics : Type := {
  Mat4 : Type;
  Mat4_multiply : Mat4 -> Mat4 -> Mat4;
  Number : Type;
  Number_mul : Number -> Number -> Number;
  Number_ofZ : Z -> Number;
  Texture : Type
}.

Section DataModel.
Context {NM : Numerics}.

(** ** Scene objects *)

(** [CSMCascadeCamera]: the two matrices the pass reads. *)
Record CSMCascadeCamera : Type := {
  projectionMatrix : Mat4;
  matrixWorldInverse : Mat4
}.

(** The CSM object behind [sceneSystem.objects.csm]. *)
Record CSM : Type := {
  cascades : Z;
  resolution : Z;
  far : Z;
  cascadeCameras : list CSMCascadeCamera
}.

Definition set_cascades (v : Z) (c : CSM) : CSM :=
  {| cascades := v; resolution := resolution c; far := far c;
     cascadeCameras := cascadeCameras c |}.

Definition set_resolution (v : Z) (c : CSM) : CSM :=
  {| cascades := cascades c; resolution := v; far := far c;
     cascadeCameras := cascadeCameras c |}.

Definition set_far (v : Z) (c : CSM) : CSM :=
  {| cascades := cascades c; resolution := resolution c; far := v;
     cascadeCameras := cascadeCameras c |}.

(** The triple the settings handler assigns. *)
Definition config (c : CSM) : Z * Z * Z := (cascades c, resolution c, far c).

(** A drawable owned by a tile ([tile.extrudedMesh], [tile.huggingMesh]): an
    object with an identity, the frustum test and [draw()]. *)
Record TileMesh : Type := {
  tm_id : nat;
  tm_inCameraFrustum : CSMCascadeCamera -> bool
}.

Record Tile : Type := {
  tile_matrixWorld : Mat4;
  extrudedMesh : option TileMesh;
  huggingMesh : option TileMesh
}.

(** A renderer mesh ([instancedObject.mesh], [aircraft.mesh]). *)
Record AbstractMesh : Type := {
  mesh_id : nat;
  instanceCount : Z
}.

(** Modelled from the spec: the classes of the instanced objects and of the
    aircraft are not among the files studied.  Following the spec's
    GeometryItem, each has a world transform, an optional drawable handle and
    a frustum test; [ShadowMappingPass] reads [matrixWorld] and [mesh]. *)
Record InstancedObject : Type := {
  io_matrixWorld : Mat4;
  io_mesh : option AbstractMesh;
  io_inCameraFrustum : CSMCascadeCamera -> bool
}.

Record Aircraft : Type := {
  ac_matrixWorld : Mat4;
  ac_mesh : option AbstractMesh;
  ac_inCameraFrustum : CSMCascadeCamera -> bool
}.

Record TerrainRing : Type := { size : Number; segmentCount : Number }.
Record Vec2 : Type := { x : Number; y : Number }.

Record TileParams : Type := {
  ring0 : TerrainRing;
  levelId : Number;
  ring0Offset : Vec2;
  ring1Offset : Vec2
}.

Record Terrain : Type := { getTileParams : Tile -> TileParams }.

(** [manager.sceneSystem.objects].  [instancedObjects] is a JavaScript [Map]
    walked with [entries()]: an association list in insertion order. *)
Record SceneObjects : Type := {
  csm : CSM;
  tiles : list Tile;
  terrain : Terrain;
  instancedObjects : list (string * InstancedObject);
  instancedAircraft : list Aircraft
}.

Definition set_csm (c : CSM) (o : SceneObjects) : SceneObjects :=
  {| csm := c; tiles := tiles o; terrain := terrain o;
     instancedObjects := instancedObjects o;
     instancedAircraft := instancedAircraft o |}.

(** ** The pass *)

(** The size descriptor of a render-pass resource. *)
Record Descriptor : Type := { width : Z; height : Z; depth : Z }.

(** Modelled from the spec: [descriptor.setSize(width, height, depth)] of the
    render-graph resource is not among the files studied; the spec has it
    redescribe the resource to the new width, height and depth. *)
Definition Descriptor_setSize (w h d : Z) (_ : Descriptor) : Descriptor :=
  {| width := w; height := h; depth := d |}.

(** Calls the settings handler makes on its collaborators, in order. *)
Inductive Call : Type :=
| CallUpdateCascades
| CallDescriptorSetSize (w h d : Z).

(** What the pass reaches through [this.manager] and [this.getResource]. *)
Record Pass : Type := {
  objects : SceneObjects;
  shadowMaps : Descriptor;
  terrainRingHeight : Texture;
  calls : list Call
}.

Definition passCsm (p : Pass) : CSM := csm (objects p).

Section Settings.
(** [csm.updateCascades()] belongs to the CSM class, outside of the files
    studied: a parameter. *)
Variable updateCascades : CSM -> CSM.

Definition callUpdateCascades (p : Pass) : Pass :=
  {| objects := set_csm (updateCascades (passCsm p)) (objects p);
     shadowMaps := shadowMaps p;
     terrainRingHeight := terrainRingHeight p;
     calls := calls p ++ [CallUpdateCascades] |}.

Definition updateShadowMapDescriptor (p : Pass) : Pass :=
  let c := passCsm p in
  {| objects := objects p;
     shadowMaps :=
       Descriptor_setSize (resolution c) (resolution c) (cascades c) (shadowMaps p);
     terrainRingHeight := terrainRingHeight p;
     calls := calls p ++ [CallDescriptorSetSize (resolution c) (resolution c) (cascades c)] |}.

Definition assignCsm (f : CSM -> CSM) (p : Pass) : Pass :=
  {| objects := set_csm (f (passCsm p)) (objects p);
     shadowMaps := shadowMaps p;
     terrainRingHeight := terrainRingHeight p;
     calls := calls p |}.

(** The callback [listenToSettings] registers for the key ['shadows']. *)
Definition shadowsHandler (statusValue : string) (p : Pass) : Pass :=
  let p1 :=
    if String.eqb statusValue "low" then
      assignCsm (fun c => set_far 3000 (set_resolution 2048 (set_cascades 1 c))) p
    else if String.eqb statusValue "medium" then
      assignCsm (fun c => set_far 4000 (set_resolution 2048 (set_cascades 3 c))) p
    else
      assignCsm (fun c => set_far 5000 (set_resolution 4096 (set_cascades 3 c))) p in
  updateShadowMapDescriptor (callUpdateCascades p1).

(** Modelled from the spec: [settings.onChange(key, handler, true)] is not
    among the files studied.  The spec has the handler invoked once,
    synchronously, at registration and thereafter on each change.
    [listenToSettings] is the registration, given the value the setting holds
    at that moment; [settingsChanged] is one later notification. *)
Definition listenToSettings (current : string) (p : Pass) : Pass :=
  shadowsHandler current p.

Definition settingsChanged (statusValue : string) (p : Pass) : Pass :=
  shadowsHandler statusValue p.

(** The states of a pass built from [p0]: registration, then any number of
    notifications. *)
Inductive reachable (p0 : Pass) : Pass -> Prop :=
| reach_construct : forall current, reachable p0 (listenToSettings current p0)
| reach_change : forall p statusValue,
    reachable p0 p -> reachable p0 (settingsChanged statusValue p).

End Settings.

(** [setSize(width, height)]: the body is empty. *)
Definition setSize (width height : Number) (p : Pass) : Pass := p.

(** ** Rendering *)

(** The five depth materials the constructor creates. *)
Inductive Material : Type :=
| buildingDepthMaterial
| huggingMeshMaterial
| treeMaterial
| instanceMaterial
| aircraftMaterial.

Definition Material_eqb (a b : Material) : bool :=
  match a, b with
  | buildingDepthMaterial, buildingDepthMaterial
  | huggingMeshMaterial, huggingMeshMaterial
  | treeMaterial, treeMaterial
  | instanceMaterial, instanceMaterial
  | aircraftMaterial, aircraftMaterial => true
  | _, _ => false
  end.

(** The four private helpers of [render]. *)
Inductive Category : Type :=
| CatInstances
| CatAircraft
| CatBuildings
| CatHuggingMeshes.

Inductive UniformValue : Type :=
| UMat4 (m : Mat4)
| UTexture (t : Texture)
| UFloat1 (v : Number)
| UFloat4 (a b c d : Number).

(** What [render] does to the outside, one constructor per kind of
    statement: the slice assignment, [beginRenderPass], the entry into a
    helper, [useMaterial], a uniform assignment (the block is absent for
    [getUniform(name)]), [updateUniformBlock] and [draw()]. *)
Inductive Cmd : Type :=
| SetSlice (i : nat)
| BeginRenderPass
| Invoke (c : Category)
| UseMaterial (m : Material)
| SetUniform (m : Material) (name : string) (block : option string) (v : UniformValue)
| UpdateUniformBlock (m : Material) (block : string)
| Draw (mesh : nat).

Definition Trace : Type := list Cmd.

(** Calling a method on [null]. *)
Inductive Exn : Type := TypeError.

(** Commands issued so far, and either the exception that stopped the
    computation or its result. *)
Definition M (A : Type) : Type := (Trace * (Exn + A))%type.

Definition ret {A : Type} (a : A) : M A := ([], inr a).

Definition bind {A B : Type} (m : M A) (k : A -> M B) : M B :=
  match m with
  | (t, inl e) => (t, inl e)
  | (t, inr a) => let (t', r) := k a in (t ++ t', r)
  end.

Definition emit (c : Cmd) : M unit := ([c], inr tt).

Definition throw {A : Type} (e : Exn) : M A := ([], inl e).

Notation "m1 ;; m2" := (bind m1 (fun _ => m2))
  (at level 61, right associativity).

(** [for (const x of xs) body(x)]; [continue] is a body that returns. *)
Fixpoint forEach {A : Type} (xs : list A) (body : A -> M unit) : M unit :=
  match xs with
  | [] => ret tt
  | x :: rest => body x ;; forEach rest body
  end.

Definition trace {A : Type} (m : M A) : Trace := fst m.

Definition completes {A : Type} (m : M A) : bool :=
  match snd m with inl _ => false | inr _ => true end.

(** *** Buildings *)

Definition buildingItem (shadowCamera : CSMCascadeCamera) (tile : Tile) : M unit :=
  match extrudedMesh tile with
  | None => ret tt
  | Some mesh =>
      if negb (tm_inCameraFrustum mesh shadowCamera) then ret tt
      else
        let mvMatrix :=
          Mat4_multiply (matrixWorldInverse shadowCamera) (tile_matrixWorld tile) in
        emit (SetUniform buildingDepthMaterial "modelViewMatrix" (Some "PerMesh")
                (UMat4 mvMatrix)) ;;
        emit (UpdateUniformBlock buildingDepthMaterial "PerMesh") ;;
        emit (Draw (tm_id mesh))
  end.

Definition renderBuildings (p : Pass) (shadowCamera : CSMCascadeCamera) : M unit :=
  emit (Invoke CatBuildings) ;;
  emit (UseMaterial buildingDepthMaterial) ;;
  emit (SetUniform buildingDepthMaterial "projectionMatrix" (Some "PerMaterial")
          (UMat4 (projectionMatrix shadowCamera))) ;;
  emit (UpdateUniformBlock buildingDepthMaterial "PerMaterial") ;;
  forEach (tiles (objects p)) (buildingItem shadowCamera).

(** *** Hugging meshes *)

Definition huggingItem (trn : Terrain) (shadowCamera : CSMCascadeCamera)
    (tile : Tile) : M unit :=
  match huggingMesh tile with
  | None => ret tt
  | Some mesh =>
      if negb (tm_inCameraFrustum mesh shadowCamera) then ret tt
      else
        let tp := getTileParams trn tile in
        let mvMatrix :=
          Mat4_multiply (matrixWorldInverse shadowCamera) (tile_matrixWorld tile) in
        emit (SetUniform huggingMeshMaterial "modelViewMatrix" (Some "PerMesh")
                (UMat4 mvMatrix)) ;;
        emit (SetUniform huggingMeshMaterial "terrainRingSize" (Some "PerMesh")
                (UFloat1 (size (ring0 tp)))) ;;
        emit (SetUniform huggingMeshMaterial "terrainRingOffset" (Some "PerMesh")
                (UFloat4 (x (ring0Offset tp)) (y (ring0Offset tp))
                         (x (ring1Offset tp)) (y (ring1Offset tp)))) ;;
        emit (SetUniform huggingMeshMaterial "terrainLevelId" (Some "PerMesh")
                (UFloat1 (levelId tp))) ;;
        emit (SetUniform huggingMeshMaterial "segmentCount" (Some "PerMesh")
                (UFloat1 (Number_mul (segmentCount (ring0 tp)) (Number_ofZ 2)))) ;;
        emit (UpdateUniformBlock huggingMeshMaterial "PerMesh") ;;
        emit (Draw (tm_id mesh))
  end.

Definition renderHuggingMeshes (p : Pass) (shadowCamera : CSMCascadeCamera) : M unit :=
  emit (Invoke CatHuggingMeshes) ;;
  emit (SetUniform huggingMeshMaterial "tRingHeight" None
          (UTexture (terrainRingHeight p))) ;;
  emit (UseMaterial huggingMeshMaterial) ;;
  emit (SetUniform huggingMeshMaterial "projectionMatrix" (Some "PerMaterial")
          (UMat4 (projectionMatrix shadowCamera))) ;;
  emit (UpdateUniformBlock huggingMeshMaterial "PerMaterial") ;;
  forEach (tiles (objects p)) (huggingItem (terrain (objects p)) shadowCamera).

(** *** Instanced objects *)

Definition instanceMaterialFor (name : string) : Material :=
  if String.eqb name "tree" then treeMaterial else instanceMaterial.

Definition instanceItem (shadowCamera : CSMCascadeCamera)
    (entry : string * InstancedObject) : M unit :=
  let (name, instancedObject) := entry in
  let mvMatrix :=
    Mat4_multiply (matrixWorldInverse shadowCamera) (io_matrixWorld instancedObject) in
  let material := instanceMaterialFor name in
  emit (UseMaterial material) ;;
  emit (SetUniform material "projectionMatrix" (Some "MainBlock")
          (UMat4 (projectionMatrix shadowCamera))) ;;
  emit (SetUniform material "modelViewMatrix" (Some "MainBlock") (UMat4 mvMatrix)) ;;
  emit (UpdateUniformBlock material "MainBlock") ;;
  match io_mesh instancedObject with
  | None => throw TypeError
  | Some mesh => emit (Draw (mesh_id mesh))
  end.

Definition renderInstances (p : Pass) (shadowCamera : CSMCascadeCamera) : M unit :=
  emit (Invoke CatInstances) ;;
  forEach (instancedObjects (objects p)) (instanceItem shadowCamera).

(** *** Aircraft *)

Definition aircraftItem (shadowCamera : CSMCascadeCamera) (aircraft : Aircraft)
    : M unit :=
  match ac_mesh aircraft with
  | None => ret tt
  | Some mesh =>
      if 0 <? instanceCount mesh then
        let mvMatrix :=
          Mat4_multiply (matrixWorldInverse shadowCamera) (ac_matrixWorld aircraft) in
        emit (UseMaterial aircraftMaterial) ;;
        emit (SetUniform aircraftMaterial "projectionMatrix" (Some "MainBlock")
                (UMat4 (projectionMatrix shadowCamera))) ;;
        emit (SetUniform aircraftMaterial "modelViewMatrix" (Some "MainBlock")
                (UMat4 mvMatrix)) ;;
        emit (UpdateUniformBlock aircraftMaterial "MainBlock") ;;
        emit (Draw (mesh_id mesh))
      else ret tt
  end.

Definition renderAircraft (p : Pass) (shadowCamera : CSMCascadeCamera) : M unit :=
  emit (Invoke CatAircraft) ;;
  forEach (instancedAircraft (objects p)) (aircraftItem shadowCamera).

(** *** The frame *)

(** The body of the loop of [render] for the index [i]. *)
Definition renderCascade (p : Pass) (i : nat) (camera : CSMCascadeCamera) : M unit :=
  emit (SetSlice i) ;;
  emit BeginRenderPass ;;
  (if (i <? 2)%nat then renderInstances p camera ;; renderAircraft p camera
   else ret tt) ;;
  renderBuildings p camera ;;
  renderHuggingMeshes p camera.

(** [for (let i = 0; i < cameras.length; i++)], started at index [i]. *)
Fixpoint renderFrom (p : Pass) (i : nat) (cameras : list CSMCascadeCamera) : M unit :=
  match cameras with
  | [] => ret tt
  | camera :: rest => renderCascade p i camera ;; renderFrom p (S i) rest
  end.

Definition render (p : Pass) : M unit :=
  renderFrom p 0 (cascadeCameras (passCsm p)).

(** ** Reading a trace *)

Definition isBind (m : Material) (c : Cmd) : bool :=
  match c with UseMaterial m' => Material_eqb m m' | _ => false end.

Definition isAnyBind (c : Cmd) : bool :=
  match c with UseMaterial _ => true | _ => false end.

Definition isWrite (name : string) (c : Cmd) : bool :=
  match c with SetUniform _ n _ _ => String.eqb name n | _ => false end.

Definition isFlush (block : string) (c : Cmd) : bool :=
  match c with UpdateUniformBlock _ b => String.eqb block b | _ => false end.

Definition count (f : Cmd -> bool) (t : Trace) : nat := List.length (filter f t).

(** The meshes drawn, in order. *)
Fixpoint drawn (t : Trace) : list nat :=
  match t with
  | [] => []
  | Draw m :: rest => m :: drawn rest
  | _ :: rest => drawn rest
  end.

(** The meshes drawn, each with the material bound when its [draw()] ran;
    [cur] is the material bound before the trace starts. *)
Fixpoint drawnWith (cur : option Material) (t : Trace) : list (option Material * nat) :=
  match t with
  | [] => []
  | UseMaterial m :: rest => drawnWith (Some m) rest
  | Draw mesh :: rest => (cur, mesh) :: drawnWith cur rest
  | _ :: rest => drawnWith cur rest
  end.

(** The trace cut at the slice assignments: for each cascade its index and
    the helpers entered while it was the target. *)
Fixpoint bySlice (cur : option (nat * list Category)) (t : Trace)
    : list (nat * list Category) :=
  match t with
  | [] => match cur with None => [] | Some s => [s] end
  | SetSlice i :: rest =>
      match cur with
      | None => bySlice (Some (i, [])) rest
      | Some s => s :: bySlice (Some (i, [])) rest
      end
  | Invoke c :: rest =>
      match cur with
      | None => bySlice None rest
      | Some (i, cs) => bySlice (Some (i, cs ++ [c])) rest
      end
  | _ :: rest => bySlice cur rest
  end.

Definition categoriesBySlice (t : Trace) : list (nat * list Category) :=
  bySlice None t.

(** The helpers entered, in order. *)
Fixpoint invoked (t : Trace) : list Category :=
  match t with
  | [] => []
  | Invoke c :: rest => c :: invoked rest
  | _ :: rest => invoked rest
  end.

Definition isSlice (c : Cmd) : bool :=
  match c with SetSlice _ => true | _ => false end.

(** A command of the inside of a helper: neither a slice assignment nor the
    entry into a helper. *)
Definition isPlain (c : Cmd) : bool :=
  match c with SetSlice _ | Invoke _ => false | _ => true end.

(** Where a cascade ends: at the end of the trace or at the next slice
    assignment. *)
Definition startsCascade (t : Trace) : Prop :=
  t = [] \/ exists i rest, t = SetSlice i :: rest.

(** ** What the loops are expected to draw *)

(** The mesh of a tile as far as a camera is concerned: there when the tile
    has it and its frustum test succeeds. *)
Definition visibleMesh (m : option TileMesh) (cam : CSMCascadeCamera) : list nat :=
  match m with
  | Some mesh => if tm_inCameraFrustum mesh cam then [tm_id mesh] else []
  | None => []
  end.

(** The mesh of an aircraft, when it has one with instances. *)
Definition flyingMesh (a : Aircraft) : list nat :=
  match ac_mesh a with
  | Some mesh => if 0 <? instanceCount mesh then [mesh_id mesh] else []
  | None => []
  end.

(** The mesh of an instanced object with the material its name selects. *)
Definition instanceDraw (e : string * InstancedObject)
    : list (option Material * nat) :=
  match io_mesh (snd e) with
  | Some mesh => [(Some (instanceMaterialFor (fst e)), mesh_id mesh)]
  | None => []
  end.

Definition hasMesh (e : string * InstancedObject) : bool :=
  match io_mesh (snd e) with Some _ => true | None => false end.

Definition set_instancedAircraft (acs : list Aircraft) (p : Pass) : Pass :=
  {| objects :=
       {| csm := csm (objects p); tiles := tiles (objects p);
          terrain := terrain (objects p);
          instancedObjects := instancedObjects (objects p);
          instancedAircraft := acs |};
     shadowMaps := shadowMaps p;
     terrainRingHeight := terrainRingHeight p;
     calls := calls p |}.

End DataModel.

Arguments ret {NM A} a.
Arguments throw {NM A} e.

Notation "m1 ;; m2" := (bind m1 (fun _ => m2))
  (at level 61, right associativity).

(** ** WaterMask *)

(** The object literal passed to [renderer.createAttribute]. *)
Record AttributeParams {NM : Numerics} (T F : Type) : Type := {
  attr_name : string;
  attr_type : T;
  attr_format : F;
  attr_size : Z;
  attr_normalized : bool;
  attr_data : list Number
}.

(** [AbstractRenderer], as far as [WaterMask] uses it: the two factory
    methods, which may change the renderer, and the two constants of
    [RendererTypes] the attribute is created with.  [createMesh] takes the
    [attributes] of its object literal. *)
Class AbstractRenderer {NM : Numerics} (R : Type) : Type := {
  AttributeType : Type;
  AttributeType_Float32 : AttributeType;
  AttributeFormat : Type;
  AttributeFormat_Float : AttributeFormat;
  AbstractAttribute : Type;
  createAttribute :
    AttributeParams AttributeType AttributeFormat -> R -> AbstractAttribute * R;
  createMesh : list AbstractAttribute -> R -> AbstractMesh * R
}.

Section WaterMaskModel.
Context {NM : Numerics} {R : Type} {AR : AbstractRenderer R}.

Record WaterMask : Type := {
  wm_mesh : option AbstractMesh;
  verticesBuffer : list Number
}.

(** [new WaterMask(vertices)]. *)
Definition WaterMask_new (vertices : list Number) : WaterMask :=
  {| wm_mesh := None; verticesBuffer := vertices |}.

Definition isMeshReady (w : WaterMask) : bool :=
  match wm_mesh w with
  | None => false
  | Some _ => true
  end.

Definition positionAttribute (w : WaterMask)
    : AttributeParams AttributeType AttributeFormat :=
  {| attr_name := "position";
     attr_type := AttributeType_Float32;
     attr_format := AttributeFormat_Float;
     attr_size := 2;
     attr_normalized := false;
     attr_data := verticesBuffer w |}.

Definition updateMesh (renderer : R) (w : WaterMask) : WaterMask * R :=
  match wm_mesh w with
  | None =>
      let (attribute, r1) := createAttribute (positionAttribute w) renderer in
      let (mesh, r2) := createMesh [attribute] r1 in
      ({| wm_mesh := Some mesh; verticesBuffer := verticesBuffer w |}, r2)
  | Some _ => (w, renderer)
  end.

End WaterMaskModel.

(** ** Concrete scenes

    The abstract collaborators instantiated with integers, and the small
    scenes the statements below are evaluated on. *)

#[local] Instance ZNumerics : Numerics := {|
  Mat4 := Z;
  Mat4_multiply := Z.mul;
  Number := Z;
  Number_mul := Z.mul;
  Number_ofZ := fun z => z;
  Texture := nat
|}.

Definition cam0 : CSMCascadeCamera :=
  {| projectionMatrix := 2; matrixWorldInverse := 3 |}.
Definition cam1 : CSMCascadeCamera :=
  {| projectionMatrix := 5; matrixWorldInverse := 7 |}.
Definition cam2 : CSMCascadeCamera :=
  {| projectionMatrix := 11; matrixWorldInverse := 13 |}.

(** Modelled from the spec: [updateCascades] of the CSM class is not among
    the files studied; the spec has it rebuild the camera set, one camera
    per cascade index, and nothing else. *)
Definition rebuildCameras (c : CSM) : CSM :=
  {| cascades := cascades c; resolution := resolution c; far := far c;
     cascadeCameras := repeat cam0 (Z.to_nat (cascades c)) |}.

Definition flatTerrain : Terrain :=
  {| getTileParams := fun _ =>
       {| ring0 := {| size := 64; segmentCount := 16 |};
          levelId := 0;
          ring0Offset := {| x := 0; y := 0 |};
          ring1Offset := {| x := 1; y := 1 |} |} |}.

Definition sceneWith (cams : list CSMCascadeCamera) (ts : list Tile)
    (ios : list (string * InstancedObject)) (acs : list Aircraft) : Pass :=
  {| objects :=
       {| csm := {| cascades := Z.of_nat (List.length cams); resolution := 2048;
                    far := 4000; cascadeCameras := cams |};
          tiles := ts; terrain := flatTerrain;
          instancedObjects := ios; instancedAircraft := acs |};
     shadowMaps := {| width := 2048; height := 2048;
                      depth := Z.of_nat (List.length cams) |};
     terrainRingHeight := 0%nat;
     calls := [] |}.

(** A pass before its constructor has registered the settings handler. *)
Definition blankPass : Pass :=
  {| objects :=
       {| csm := {| cascades := 0; resolution := 0; far := 0; cascadeCameras := [] |};
          tiles := []; terrain := flatTerrain;
          instancedObjects := []; instancedAircraft := [] |};
     shadowMaps := {| width := 1; height := 1; depth := 1 |};
     terrainRingHeight := 0%nat;
     calls := [] |}.

(** A tile mesh that only the first camera sees. *)
Definition nearOnly (c : CSMCascadeCamera) : bool := projectionMatrix c =? 2.

Definition houseTile : Tile :=
  {| tile_matrixWorld := 17;
     extrudedMesh := Some {| tm_id := 1; tm_inCameraFrustum := nearOnly |};
     huggingMesh := Some {| tm_id := 2; tm_inCameraFrustum := nearOnly |} |}.

Definition emptyTile : Tile :=
  {| tile_matrixWorld := 19; extrudedMesh := None; huggingMesh := None |}.

(** Instanced objects and aircraft whose frustum test fails for every
    camera. *)
Definition rock (id : nat) : InstancedObject :=
  {| io_matrixWorld := 23;
     io_mesh := Some {| mesh_id := id; instanceCount := 4 |};
     io_inCameraFrustum := fun _ => false |}.

Definition meshlessObject : InstancedObject :=
  {| io_matrixWorld := 29; io_mesh := None; io_inCameraFrustum := fun _ => true |}.

Definition plane (id : nat) (n : Z) : Aircraft :=
  {| ac_matrixWorld := 31;
     ac_mesh := Some {| mesh_id := id; instanceCount := n |};
     ac_inCameraFrustum := fun _ => false |}.

(** A renderer that numbers the meshes it creates. *)
#[local] Instance CountingRenderer : AbstractRenderer nat := {|
  AttributeType := unit;
  AttributeType_Float32 := tt;
  AttributeFormat := unit;
  AttributeFormat_Float := tt;
  AbstractAttribute := list Z;
  createAttribute := fun params r => (attr_data params, r);
  createMesh := fun attrs r => ({| mesh_id := r; instanceCount := 0 |}, S r)
|}.

(** What is assumed of [updateCascades]: it rebuilds the cameras and leaves
    the three configuration fields as the handler assigned them. *)
Definition keepsConfig {NM : Numerics} (upd : CSM -> CSM) : Prop :=
  forall c, config (upd c) = config c.

(** The descriptor agrees with the CSM object of the same pass. *)
Definition descriptorMatches {NM : Numerics} (p : Pass) : Prop :=
  width (shadowMaps p) = resolution (passCsm p) /\
  height (shadowMaps p) = resolution (passCsm p) /\
  depth (shadowMaps p) = cascades (passCsm p).

(** ** Further readings of a trace *)

Section Readers.
Context {NM : Numerics}.

(** The slice indices assigned, in order. *)
Fixpoint slices (t : Trace) : list nat :=
  match t with
  | [] => []
  | SetSlice i :: rest => i :: slices rest
  | _ :: rest => slices rest
  end.

(** What a draw depends on: the material in use and the uniform blocks
    written since their last [updateUniformBlock]. *)
Record Gpu : Type := {
  gpu_bound : option Material;
  gpu_dirty : list (Material * string)
}.

Definition sameBlock (m : Material) (b : string) (d : Material * string) : bool :=
  Material_eqb m (fst d) && String.eqb b (snd d).

(** One command; a [draw()] goes wrong when no material is in use or when a
    block of the material in use was written and not flushed. *)
Definition gpuStep (g : Gpu) (c : Cmd) : option Gpu :=
  match c with
  | UseMaterial m => Some {| gpu_bound := Some m; gpu_dirty := gpu_dirty g |}
  | SetUniform m _ (Some b) _ =>
      Some {| gpu_bound := gpu_bound g; gpu_dirty := (m, b) :: gpu_dirty g |}
  | UpdateUniformBlock m b =>
      Some {| gpu_bound := gpu_bound g;
              gpu_dirty := filter (fun d => negb (sameBlock m b d)) (gpu_dirty g) |}
  | Draw _ =>
      match gpu_bound g with
      | Some m =>
          if forallb (fun d => negb (Material_eqb m (fst d))) (gpu_dirty g)
          then Some g else None
      | None => None
      end
  | _ => Some g
  end.

Fixpoint gpuRun (g : Gpu) (t : Trace) : option Gpu :=
  match t with
  | [] => Some g
  | c :: rest =>
      match gpuStep g c with
      | Some g' => gpuRun g' rest
      | None => None
      end
  end.

Definition gpuIdle : Gpu := {| gpu_bound := None; gpu_dirty := [] |}.

(** No block is waiting for its flush. *)
Definition gpuClean (g : Gpu) : Prop := gpu_dirty g = [].

Definition gpuCleanWith (m : Material) (g : Gpu) : Prop :=
  gpu_bound g = Some m /\ gpu_dirty g = [].

(** From a state in [I] the commands run without a wrong draw and end in
    [J]. *)
Definition gpuSafe (I J : Gpu -> Prop) (t : Trace) : Prop :=
  forall g, I g -> exists g', gpuRun g t = Some g' /\ J g'.

(** The meshes drawn, each with the value the uniform [name] of the material
    in use held when its [draw()] ran; [vals] gives the values held before
    the trace starts. *)
Fixpoint uniformAtDraw (name : string) (cur : option Material)
    (vals : Material -> option UniformValue) (t : Trace)
    : list (nat * option UniformValue) :=
  match t with
  | [] => []
  | UseMaterial m :: rest => uniformAtDraw name (Some m) vals rest
  | SetUniform m n _ v :: rest =>
      if String.eqb name n then
        uniformAtDraw name cur
          (fun m' => if Material_eqb m m' then Some v else vals m') rest
      else uniformAtDraw name cur vals rest
  | Draw mesh :: rest =>
      (mesh, match cur with Some m => vals m | None => None end)
      :: uniformAtDraw name cur vals rest
  | _ :: rest => uniformAtDraw name cur vals rest
  end.

Definition withValue (ids : list nat) (v : UniformValue)
    : list (nat * option UniformValue) :=
  map (fun id => (id, Some v)) ids.

Definition withMaterial (m : Material) (ids : list nat)
    : list (option Material * nat) :=
  map (fun id => (Some m, id)) ids.

(** The product [render] computes for an item of world matrix [world]. *)
Definition modelView (cam : CSMCascadeCamera) (world : Mat4) : UniformValue :=
  UMat4 (Mat4_multiply (matrixWorldInverse cam) world).

(** The draws expected of the cascade of index [i], with their materials:
    instanced objects and aircraft for the first two indices, then the
    extruded and the hugging meshes the camera sees. *)
Definition cascadeDraws (p : Pass) (i : nat) (cam : CSMCascadeCamera)
    : list (option Material * nat) :=
  (if (i <? 2)%nat then
     flat_map instanceDraw (instancedObjects (objects p))
     ++ withMaterial aircraftMaterial
          (flat_map flyingMesh (instancedAircraft (objects p)))
   else [])
  ++ withMaterial buildingDepthMaterial
       (flat_map (fun t => visibleMesh (extrudedMesh t) cam) (tiles (objects p)))
  ++ withMaterial huggingMeshMaterial
       (flat_map (fun t => visibleMesh (huggingMesh t) cam) (tiles (objects p))).

Fixpoint frameDraws (p : Pass) (i : nat) (cams : list CSMCascadeCamera)
    : list (option Material * nat) :=
  match cams with
  | [] => []
  | cam :: rest => cascadeDraws p i cam ++ frameDraws p (S i) rest
  end.

(** A further assumption on [updateCascades]: one camera per cascade. *)
Definition oneCameraPerCascade (upd : CSM -> CSM) : Prop :=
  forall c, List.length (cascadeCameras (upd c)) = Z.to_nat (cascades c).

(** The three configurations of the handler, with their descriptors. *)
Definition tierOf (statusValue : string) : Z * Z * Z :=
  if String.eqb statusValue "low" then (1, 2048, 3000)
  else if String.eqb statusValue "medium" then (3, 2048, 4000)
  else (3, 4096, 5000).

Definition fourCategories : list Category :=
  [CatInstances; CatAircraft; CatBuildings; CatHuggingMeshes].

(** The entries of the registry that come before the first one without a
    mesh. *)
Fixpoint beforeMeshless (ios : list (string * InstancedObject))
    : list (string * InstancedObject) :=
  match ios with
  | [] => []
  | e :: rest => if hasMesh e then e :: beforeMeshless rest else []
  end.

End Readers.

(** [updateMesh] called [n] times in a row on the same mask, the renderer
    passed from one call to the next. *)
Fixpoint updateMeshTimes {NM : Numerics} {R : Type} {AR : AbstractRenderer R}
    (n : nat) (renderer : R) (w : WaterMask) : WaterMask * R :=
  match n with
  | O => (w, renderer)
  | S k => let (w', r') := updateMesh renderer w in updateMeshTimes k r' w'
  end.

(** * Facts *)

(** ** The settings handler *)

Section SettingsFacts.
Context {NM : Numerics}.
Variable updateCascades : CSM -> CSM.

Local Abbreviation handler := (shadowsHandler updateCascades).

Lemma keepsConfig_fields (c : CSM) :
  keepsConfig updateCascades ->
  cascades (updateCascades c) = cascades c /\
  resolution (updateCascades c) = resolution c /\
  far (updateCascades c) = far c.
Proof.
  intros K. specialize (K c). unfold config in K.
  inversion K. auto.
Qed.

(** The CSM object the handler leaves behind is what [updateCascades]
    returned, for whichever branch was taken. *)
Lemma handler_csm (v : string) (p : Pass) :
  exists c r f,
    passCsm (handler v p) =
      updateCascades (set_far f (set_resolution r (set_cascades c (passCsm p)))) /\
    (c, r, f) =
      (if String.eqb v "low" then (1, 2048, 3000)
       else if String.eqb v "medium" then (3, 2048, 4000)
       else (3, 4096, 5000)).
Proof.
  unfold shadowsHandler.
  destruct (String.eqb v "low"); [| destruct (String.eqb v "medium")];
    do 3 eexists; split; reflexivity.
Qed.

(** The descriptor is written from the CSM object as it is once
    [updateCascades] has returned. *)
Lemma handler_descriptor (v : string) (p : Pass) :
  shadowMaps (handler v p) =
    {| width := resolution (passCsm (handler v p));
       height := resolution (passCsm (handler v p));
       depth := cascades (passCsm (handler v p)) |}.
Proof.
  unfold shadowsHandler.
  destruct (String.eqb v "low"); [| destruct (String.eqb v "medium")]; reflexivity.
Qed.

Lemma handler_calls (v : string) (p : Pass) :
  calls (handler v p) =
    calls p ++
    [CallUpdateCascades;
     CallDescriptorSetSize (resolution (passCsm (handler v p)))
                           (resolution (passCsm (handler v p)))
                           (cascades (passCsm (handler v p)))].
Proof.
  unfold shadowsHandler.
  destruct (String.eqb v "low"); [| destruct (String.eqb v "medium")];
    cbn; rewrite <- app_assoc; reflexivity.
Qed.

Lemma handler_config (v : string) (p : Pass) :
  keepsConfig updateCascades ->
  config (passCsm (handler v p)) =
    (if String.eqb v "low" then (1, 2048, 3000)
     else if String.eqb v "medium" then (3, 2048, 4000)
     else (3, 4096, 5000)).
Proof.
  intros K. destruct (handler_csm v p) as (c & r & f & E & T).
  rewrite E, K, <- T. reflexivity.
Qed.

(** C1: under the settings handler, 'low' gives (cascades, resolution, far) =
    (1, 2048, 3000), 'medium' gives (3, 2048, 4000), 'high' gives
    (3, 4096, 5000), and every value that is neither 'low' nor 'medium'
    gives the configuration of 'high'. *)
Theorem shadows_tier_mapping (v : string) (p : Pass) :
  keepsConfig updateCascades ->
  config (passCsm (shadowsHandler updateCascades "low" p)) = (1, 2048, 3000) /\
  config (passCsm (shadowsHandler updateCascades "medium" p)) = (3, 2048, 4000) /\
  config (passCsm (shadowsHandler updateCascades "high" p)) = (3, 4096, 5000) /\
  (v <> "low" -> v <> "medium" ->
   config (passCsm (shadowsHandler updateCascades v p)) = (3, 4096, 5000)).
Proof.
  intros K.
  split; [apply (handler_config "low" p K) |].
  split; [apply (handler_config "medium" p K) |].
  split; [apply (handler_config "high" p K) |].
  intros Hl Hm. rewrite (handler_config v p K).
  apply String.eqb_neq in Hl, Hm. rewrite Hl, Hm. reflexivity.
Qed.

Lemma reachable_matches (p0 p : Pass) :
  reachable updateCascades p0 p -> descriptorMatches p.
Proof.
  intros Hr. induction Hr as [current | p v _ _];
    unfold listenToSettings, settingsChanged;
    unfold descriptorMatches; rewrite handler_descriptor; cbn; auto.
Qed.

(** C2: every state the pass goes through, from the immediate call at
    registration on, has a descriptor with width = height = resolution and
    depth = cascades; each application calls [updateCascades] and then the
    descriptor's [setSize], with the values read after the rebuild; applying
    a value twice gives the configuration and the descriptor of applying it
    once. *)
Theorem descriptor_follows_config (p0 p : Pass) (v : string) :
  keepsConfig updateCascades ->
  reachable updateCascades p0 p ->
  descriptorMatches p /\
  descriptorMatches (shadowsHandler updateCascades v p) /\
  (exists c : CSM,
     passCsm (shadowsHandler updateCascades v p) = updateCascades c /\
     calls (shadowsHandler updateCascades v p) =
       calls p ++
       [CallUpdateCascades;
        CallDescriptorSetSize (resolution (updateCascades c))
                              (resolution (updateCascades c))
                              (cascades (updateCascades c))]) /\
  config (passCsm (shadowsHandler updateCascades v (shadowsHandler updateCascades v p))) =
    config (passCsm (shadowsHandler updateCascades v p)) /\
  shadowMaps (shadowsHandler updateCascades v (shadowsHandler updateCascades v p)) =
    shadowMaps (shadowsHandler updateCascades v p).
Proof.
  intros K Hr.
  assert (Hcfg : config (passCsm (handler v (handler v p))) =
                 config (passCsm (handler v p))).
  { rewrite !handler_config by exact K. reflexivity. }
  split; [exact (reachable_matches Hr) |].
  split; [apply (reachable_matches (reach_change v Hr)) |].
  split.
  - destruct (handler_csm v p) as (c & r & f & E & _).
    eexists. split; [exact E |]. rewrite <- E. apply handler_calls.
  - split; [exact Hcfg |].
    rewrite !handler_descriptor. unfold config in Hcfg.
    inversion Hcfg as [[Hc Hres Hfar]]. rewrite Hc, Hres. reflexivity.
Qed.

(** C9: [setSize] returns the pass as it received it, whatever the two
    numbers; the width, height and depth of the ShadowMaps descriptor are
    those from before the call. *)
Theorem setSize_noop (w h : Number) (p : Pass) :
  setSize w h p = p /\
  width (shadowMaps (setSize w h p)) = width (shadowMaps p) /\
  height (shadowMaps (setSize w h p)) = height (shadowMaps p) /\
  depth (shadowMaps (setSize w h p)) = depth (shadowMaps p).
Proof.
  unfold setSize. repeat split.
Qed.

End SettingsFacts.

Lemma rebuildCameras_keepsConfig : keepsConfig rebuildCameras.
Proof. intros c. reflexivity. Defined.

Lemma shadows_tier_mapping_witness :
  keepsConfig rebuildCameras /\
  config (passCsm (shadowsHandler rebuildCameras "ultra" blankPass)) = (3, 4096, 5000).
Proof.
  split; [exact rebuildCameras_keepsConfig |].
  apply (shadows_tier_mapping (updateCascades := rebuildCameras) "ultra" blankPass
           rebuildCameras_keepsConfig); discriminate.
Defined.

Lemma descriptor_follows_config_witness :
  reachable rebuildCameras blankPass
    (settingsChanged rebuildCameras "low" (listenToSettings rebuildCameras "high" blankPass)) /\
  descriptorMatches
    (settingsChanged rebuildCameras "low" (listenToSettings rebuildCameras "high" blankPass)).
Proof.
  assert (Hr : reachable rebuildCameras blankPass
                 (settingsChanged rebuildCameras "low"
                    (listenToSettings rebuildCameras "high" blankPass))).
  { apply reach_change, reach_construct. }
  split; [exact Hr |].
  exact (proj1 (descriptor_follows_config "low" rebuildCameras_keepsConfig Hr)).
Defined.

(** ** The monad of [render] *)

Section MonadFacts.
Context {NM : Numerics}.

Lemma bind_emit (B : Type) (c : Cmd) (n : M B) :
  emit c ;; n = (c :: trace n, snd n).
Proof. destruct n as [t r]. reflexivity. Qed.

Lemma bind_ret (B : Type) (n : M B) : ret tt ;; n = n.
Proof. destruct n as [t r]. reflexivity. Qed.

Lemma bind_completes (A B : Type) (m : M A) (n : M B) :
  completes m = true -> m ;; n = (trace m ++ trace n, snd n).
Proof.
  destruct m as [t [e | a]], n as [t' r]; cbn; [discriminate | reflexivity].
Qed.

Lemma bind_raises (A B : Type) (m : M A) (n : M B) :
  completes m = false -> trace (m ;; n) = trace m /\ completes (m ;; n) = false.
Proof.
  destruct m as [t [e | a]], n as [t' r]; cbn; [auto | discriminate].
Qed.

Lemma completes_bind (A B : Type) (m : M A) (n : M B) :
  completes (m ;; n) = completes m && completes n.
Proof.
  destruct m as [t [e | a]], n as [t' [e' | b]]; reflexivity.
Qed.

Lemma completes_unit (m : M unit) : completes m = true -> m = (trace m, inr tt).
Proof.
  destruct m as [t [e | []]]; cbn; [discriminate | reflexivity].
Qed.

(** The trace of a sequence starts with the trace of its first part. *)
Lemma trace_bind_prefix (A B : Type) (m : M A) (n : M B) :
  exists rest, trace (m ;; n) = trace m ++ rest.
Proof.
  destruct m as [t [e | a]], n as [t' r]; cbn.
  - exists []. now rewrite app_nil_r.
  - now exists t'.
Qed.

Lemma forEach_completes (A : Type) (body : A -> M unit) (xs : list A) :
  completes (forEach xs body) = forallb (fun a => completes (body a)) xs.
Proof.
  induction xs as [| a xs IH]; cbn [forEach forallb]; [reflexivity |].
  now rewrite completes_bind, IH.
Qed.

(** A loop none of whose iterations raises issues the commands of its
    iterations one after the other. *)
Lemma forEach_trace (A : Type) (body : A -> M unit) (xs : list A) :
  completes (forEach xs body) = true ->
  trace (forEach xs body) = flat_map (fun a => trace (body a)) xs.
Proof.
  induction xs as [| a xs IH]; cbn [forEach flat_map]; [reflexivity |].
  rewrite completes_bind. intros H. apply andb_prop in H as [Ha Hxs].
  rewrite bind_completes by exact Ha. cbn. now rewrite IH.
Qed.

(** A property of the commands of every iteration holds of the commands of
    the loop, whether or not it runs to its end. *)
Lemma forEach_forallb (A : Type) (f : Cmd -> bool) (body : A -> M unit) (xs : list A) :
  (forall a, forallb f (trace (body a)) = true) ->
  forallb f (trace (forEach xs body)) = true.
Proof.
  intros Hb. induction xs as [| a xs IH]; cbn [forEach]; [reflexivity |].
  destruct (completes (body a)) eqn:Ha.
  - rewrite bind_completes by exact Ha. cbn. rewrite forallb_app, Hb, IH. reflexivity.
  - destruct (@bind_raises _ _ (body a) (forEach xs body) Ha) as [-> _]. apply Hb.
Qed.

(** An iteration that does nothing can be left out of the loop. *)
Lemma forEach_skip (A : Type) (body : A -> M unit) (l1 l2 : list A) (a : A) :
  body a = ret tt ->
  forEach (l1 ++ a :: l2) body = forEach (l1 ++ l2) body.
Proof.
  intros Ha. induction l1 as [| b l1 IH]; cbn [forEach app].
  - rewrite Ha. apply bind_ret.
  - now rewrite IH.
Qed.

End MonadFacts.

(** ** Reading traces *)

Section TraceFacts.
Context {NM : Numerics}.

Lemma count_app (f : Cmd -> bool) (t1 t2 : Trace) :
  count f (t1 ++ t2) = (count f t1 + count f t2)%nat.
Proof. unfold count. now rewrite filter_app, length_app. Qed.

Lemma count_none (f : Cmd -> bool) (t : Trace) :
  forallb (fun c => negb (f c)) t = true -> count f t = 0%nat.
Proof.
  unfold count. induction t as [| c t IH]; cbn; [reflexivity |].
  intros H. apply andb_prop in H as [Hc Ht].
  destruct (f c); [discriminate | now apply IH].
Qed.

Lemma drawn_app (t1 t2 : Trace) : drawn (t1 ++ t2) = drawn t1 ++ drawn t2.
Proof.
  induction t1 as [| c t1 IH]; cbn; [reflexivity |].
  destruct c; cbn; now rewrite ?IH.
Qed.

Lemma invoked_app (t1 t2 : Trace) : invoked (t1 ++ t2) = invoked t1 ++ invoked t2.
Proof.
  induction t1 as [| c t1 IH]; cbn; [reflexivity |].
  destruct c; cbn; now rewrite ?IH.
Qed.

Lemma invoked_plain (t : Trace) : forallb isPlain t = true -> invoked t = [].
Proof.
  induction t as [| c t IH]; cbn; [reflexivity |].
  intros H. apply andb_prop in H as [Hc Ht].
  destruct c; cbn in *; try discriminate; now apply IH.
Qed.

Lemma noSlice_plain (t : Trace) :
  forallb isPlain t = true -> forallb (fun c => negb (isSlice c)) t = true.
Proof.
  induction t as [| c t IH]; cbn; [reflexivity |].
  intros H. apply andb_prop in H as [Hc Ht].
  rewrite (IH Ht). destruct c; cbn in *; try discriminate; reflexivity.
Qed.

(** Commands without a slice assignment only add helpers to the cascade
    being read. *)
Lemma bySlice_app (t rest : Trace) (i : nat) (acc : list Category) :
  forallb (fun c => negb (isSlice c)) t = true ->
  bySlice (Some (i, acc)) (t ++ rest) = bySlice (Some (i, acc ++ invoked t)) rest.
Proof.
  revert acc. induction t as [| c t IH]; intros acc H; cbn.
  - now rewrite app_nil_r.
  - cbn in H. apply andb_prop in H as [Hc Ht].
    destruct c; cbn in *; try discriminate; rewrite (IH _ Ht); try reflexivity.
    now rewrite <- app_assoc.
Qed.

Lemma bySlice_close (t : Trace) (s : nat * list Category) :
  startsCascade t -> bySlice (Some s) t = s :: bySlice None t.
Proof.
  intros [-> | (i & rest & ->)]; reflexivity.
Qed.

End TraceFacts.

(** ** The four helpers *)

Section HelperFacts.
Context {NM : Numerics}.
Variable p : Pass.
Variable cam : CSMCascadeCamera.

Lemma buildingItem_completes (t : Tile) : completes (buildingItem cam t) = true.
Proof.
  unfold buildingItem. destruct (extrudedMesh t) as [m |]; [| reflexivity].
  destruct (tm_inCameraFrustum m cam); reflexivity.
Qed.

Lemma huggingItem_completes (trn : Terrain) (t : Tile) :
  completes (huggingItem trn cam t) = true.
Proof.
  unfold huggingItem. destruct (huggingMesh t) as [m |]; [| reflexivity].
  destruct (tm_inCameraFrustum m cam); reflexivity.
Qed.

Lemma aircraftItem_completes (a : Aircraft) : completes (aircraftItem cam a) = true.
Proof.
  unfold aircraftItem. destruct (ac_mesh a) as [m |]; [| reflexivity].
  destruct (0 <? instanceCount m); reflexivity.
Qed.

(** An iteration over an instanced object raises exactly when the object has
    no mesh. *)
Lemma instanceItem_completes (e : string * InstancedObject) :
  completes (instanceItem cam e) =
    hasMesh e.
Proof.
  destruct e as [name o]. unfold instanceItem, hasMesh. cbn [snd].
  destruct (io_mesh o); reflexivity.
Qed.

Lemma renderBuildings_unfold :
  renderBuildings p cam =
    (Invoke CatBuildings
     :: UseMaterial buildingDepthMaterial
     :: SetUniform buildingDepthMaterial "projectionMatrix" (Some "PerMaterial")
          (UMat4 (projectionMatrix cam))
     :: UpdateUniformBlock buildingDepthMaterial "PerMaterial"
     :: flat_map (fun t => trace (buildingItem cam t)) (tiles (objects p)),
     inr tt).
Proof.
  assert (C : completes (forEach (tiles (objects p)) (buildingItem cam)) = true).
  { rewrite forEach_completes. apply forallb_forall. intros t _.
    apply buildingItem_completes. }
  unfold renderBuildings. rewrite !bind_emit. cbn [trace fst snd].
  rewrite (completes_unit _ C). cbn [trace fst snd].
  rewrite <- (forEach_trace _ _ C). reflexivity.
Qed.

Lemma renderHuggingMeshes_unfold :
  renderHuggingMeshes p cam =
    (Invoke CatHuggingMeshes
     :: SetUniform huggingMeshMaterial "tRingHeight" None
          (UTexture (terrainRingHeight p))
     :: UseMaterial huggingMeshMaterial
     :: SetUniform huggingMeshMaterial "projectionMatrix" (Some "PerMaterial")
          (UMat4 (projectionMatrix cam))
     :: UpdateUniformBlock huggingMeshMaterial "PerMaterial"
     :: flat_map (fun t => trace (huggingItem (terrain (objects p)) cam t))
          (tiles (objects p)),
     inr tt).
Proof.
  assert (C : completes (forEach (tiles (objects p))
                           (huggingItem (terrain (objects p)) cam)) = true).
  { rewrite forEach_completes. apply forallb_forall. intros t _.
    apply huggingItem_completes. }
  unfold renderHuggingMeshes. rewrite !bind_emit. cbn [trace fst snd].
  rewrite (completes_unit _ C). cbn [trace fst snd].
  rewrite <- (forEach_trace _ _ C). reflexivity.
Qed.

Lemma renderAircraft_unfold :
  renderAircraft p cam =
    (Invoke CatAircraft
     :: flat_map (fun a => trace (aircraftItem cam a)) (instancedAircraft (objects p)),
     inr tt).
Proof.
  assert (C : completes (forEach (instancedAircraft (objects p))
                           (aircraftItem cam)) = true).
  { rewrite forEach_completes. apply forallb_forall. intros t _.
    apply aircraftItem_completes. }
  unfold renderAircraft. rewrite !bind_emit. cbn [trace fst snd].
  rewrite (completes_unit _ C). cbn [trace fst snd].
  rewrite <- (forEach_trace _ _ C). reflexivity.
Qed.

Lemma renderBuildings_completes : completes (renderBuildings p cam) = true.
Proof. now rewrite renderBuildings_unfold. Qed.

Lemma renderHuggingMeshes_completes : completes (renderHuggingMeshes p cam) = true.
Proof. now rewrite renderHuggingMeshes_unfold. Qed.

Lemma renderAircraft_completes : completes (renderAircraft p cam) = true.
Proof. now rewrite renderAircraft_unfold. Qed.

Lemma renderInstances_unfold :
  renderInstances p cam =
    (Invoke CatInstances
     :: trace (forEach (instancedObjects (objects p)) (instanceItem cam)),
     snd (forEach (instancedObjects (objects p)) (instanceItem cam))).
Proof.
  unfold renderInstances. now rewrite bind_emit.
Qed.

Lemma renderInstances_completes :
  completes (renderInstances p cam) =
    forallb hasMesh (instancedObjects (objects p)).
Proof.
  rewrite renderInstances_unfold. unfold completes at 1. cbn [snd].
  fold (completes (forEach (instancedObjects (objects p)) (instanceItem cam))).
  rewrite forEach_completes.
  induction (instancedObjects (objects p)) as [| e l IH]; cbn [forallb];
    [reflexivity |].
  now rewrite instanceItem_completes, IH.
Qed.

Lemma renderInstances_trace :
  completes (renderInstances p cam) = true ->
  trace (renderInstances p cam) =
    Invoke CatInstances
    :: flat_map (fun e => trace (instanceItem cam e)) (instancedObjects (objects p)).
Proof.
  intros C. rewrite renderInstances_unfold in *. cbn [trace fst].
  f_equal. apply forEach_trace. exact C.
Qed.

(** *** The inside of the helpers holds plain commands only *)

Lemma buildingItem_plain (t : Tile) :
  forallb isPlain (trace (buildingItem cam t)) = true.
Proof.
  unfold buildingItem. destruct (extrudedMesh t) as [m |]; [| reflexivity].
  destruct (tm_inCameraFrustum m cam); reflexivity.
Qed.

Lemma huggingItem_plain (trn : Terrain) (t : Tile) :
  forallb isPlain (trace (huggingItem trn cam t)) = true.
Proof.
  unfold huggingItem. destruct (huggingMesh t) as [m |]; [| reflexivity].
  destruct (tm_inCameraFrustum m cam); reflexivity.
Qed.

Lemma aircraftItem_plain (a : Aircraft) :
  forallb isPlain (trace (aircraftItem cam a)) = true.
Proof.
  unfold aircraftItem. destruct (ac_mesh a) as [m |]; [| reflexivity].
  destruct (0 <? instanceCount m); reflexivity.
Qed.

Lemma instanceItem_plain (e : string * InstancedObject) :
  forallb isPlain (trace (instanceItem cam e)) = true.
Proof.
  destruct e as [name o]. unfold instanceItem.
  destruct (io_mesh o); reflexivity.
Qed.

Lemma flat_map_forallb (A : Type) (f : Cmd -> bool) (g : A -> Trace) (xs : list A) :
  (forall a, forallb f (g a) = true) -> forallb f (flat_map g xs) = true.
Proof.
  intros H. induction xs as [| a xs IH]; cbn; [reflexivity |].
  now rewrite forallb_app, H, IH.
Qed.

(** Each helper is entered once and assigns no slice. *)
Lemma helpers_invoked :
  (invoked (trace (renderInstances p cam)) = [CatInstances] /\
   invoked (trace (renderAircraft p cam)) = [CatAircraft]) /\
  (invoked (trace (renderBuildings p cam)) = [CatBuildings] /\
   invoked (trace (renderHuggingMeshes p cam)) = [CatHuggingMeshes]).
Proof.
  rewrite renderInstances_unfold, renderAircraft_unfold, renderBuildings_unfold,
    renderHuggingMeshes_unfold.
  cbn [trace fst invoked].
  rewrite !invoked_plain; auto.
  - apply flat_map_forallb, huggingItem_plain.
  - apply flat_map_forallb, buildingItem_plain.
  - apply flat_map_forallb, aircraftItem_plain.
  - apply forEach_forallb, instanceItem_plain.
Qed.

Lemma helpers_noSlice :
  (forallb (fun c => negb (isSlice c)) (trace (renderInstances p cam)) = true /\
   forallb (fun c => negb (isSlice c)) (trace (renderAircraft p cam)) = true) /\
  (forallb (fun c => negb (isSlice c)) (trace (renderBuildings p cam)) = true /\
   forallb (fun c => negb (isSlice c)) (trace (renderHuggingMeshes p cam)) = true).
Proof.
  rewrite renderInstances_unfold, renderAircraft_unfold, renderBuildings_unfold,
    renderHuggingMeshes_unfold.
  cbn [trace fst forallb isSlice negb andb].
  repeat split; apply noSlice_plain.
  - apply forEach_forallb, instanceItem_plain.
  - apply flat_map_forallb, aircraftItem_plain.
  - apply flat_map_forallb, buildingItem_plain.
  - apply flat_map_forallb, huggingItem_plain.
Qed.

End HelperFacts.

(** ** The frame *)

Section FrameFacts.
Context {NM : Numerics}.
Variable p : Pass.

Lemma renderCascade_head (i : nat) (cam : CSMCascadeCamera) :
  exists rest, trace (renderCascade p i cam) = SetSlice i :: rest.
Proof.
  unfold renderCascade. rewrite bind_emit. cbn [trace fst]. eauto.
Qed.

(** What one turn of the loop issues when nothing raises: the slice
    assignment, then commands that assign no slice and enter the helpers the
    index selects. *)
Lemma renderCascade_body (i : nat) (cam : CSMCascadeCamera) :
  completes (renderCascade p i cam) = true ->
  exists body,
    trace (renderCascade p i cam) = SetSlice i :: body /\
    forallb (fun c => negb (isSlice c)) body = true /\
    invoked body =
      (if (i <? 2)%nat then [CatInstances; CatAircraft] else [])
      ++ [CatBuildings; CatHuggingMeshes].
Proof.
  destruct (helpers_invoked p cam) as [[II IA] [IB IH]].
  destruct (helpers_noSlice p cam) as [[NI NA] [NB NH]].
  unfold renderCascade. rewrite !bind_emit. cbn [trace fst snd].
  unfold completes at 1. cbn [snd].
  match goal with
  | |- context [snd (?m ;; ?n)] => fold (completes (m ;; n))
  end.
  rewrite completes_bind. intros C. apply andb_prop in C as [C1 _].
  eexists. split; [reflexivity |].
  rewrite (@bind_completes _ _ _ _ (renderBuildings p cam ;; renderHuggingMeshes p cam) C1).
  rewrite (@bind_completes _ _ _ _ (renderHuggingMeshes p cam)
             (renderBuildings_completes p cam)).
  cbn [trace fst forallb isSlice negb andb invoked].
  rewrite !forallb_app, !invoked_app, NB, NH, IB, IH.
  destruct (i <? 2)%nat.
  - rewrite completes_bind in C1. apply andb_prop in C1 as [CI _].
    rewrite (@bind_completes _ _ _ _ (renderAircraft p cam) CI). cbn [trace fst].
    rewrite forallb_app, invoked_app, NI, NA, II, IA. split; reflexivity.
  - split; reflexivity.
Qed.

Lemma renderFrom_startsCascade (i : nat) (cams : list CSMCascadeCamera) :
  startsCascade (trace (renderFrom p i cams)).
Proof.
  destruct cams as [| cam rest]; [now left | right].
  cbn [renderFrom].
  destruct (trace_bind_prefix (renderCascade p i cam) (renderFrom p (S i) rest))
    as [r ->].
  destruct (renderCascade_head i cam) as [r' ->]. cbn. eauto.
Qed.

Lemma renderFrom_slices (cams : list CSMCascadeCamera) (i : nat) :
  completes (renderFrom p i cams) = true ->
  categoriesBySlice (trace (renderFrom p i cams)) =
    map (fun j => (j, (if (j <? 2)%nat then [CatInstances; CatAircraft] else [])
                      ++ [CatBuildings; CatHuggingMeshes]))
        (seq i (List.length cams)).
Proof.
  revert i. induction cams as [| cam rest IH]; intros i C; [reflexivity |].
  cbn [renderFrom] in *. rewrite completes_bind in C.
  apply andb_prop in C as [Cc Cr].
  rewrite bind_completes by exact Cc. cbn [trace fst].
  destruct (renderCascade_body i cam Cc) as (body & -> & NS & INV).
  unfold categoriesBySlice. cbn [app bySlice].
  rewrite bySlice_app by exact NS. rewrite INV. cbn [app].
  rewrite bySlice_close by apply renderFrom_startsCascade.
  cbn [List.length seq map]. f_equal. apply (IH (S i) Cr).
Qed.

(** X13: in a frame that runs to its end, the cascade of index [i] enters the
    instanced-object and aircraft helpers exactly when [i < 2], and enters
    the building and hugging-mesh helpers whatever [i] is; there is one such
    cascade per camera. *)
Theorem cascade_category_policy (i : nat) :
  completes (render p) = true ->
  (i < List.length (cascadeCameras (passCsm p)))%nat ->
  List.length (categoriesBySlice (trace (render p))) =
    List.length (cascadeCameras (passCsm p)) /\
  exists cs,
    nth_error (categoriesBySlice (trace (render p))) i = Some (i, cs) /\
    (In CatInstances cs <-> (i < 2)%nat) /\
    (In CatAircraft cs <-> (i < 2)%nat) /\
    In CatBuildings cs /\
    In CatHuggingMeshes cs.
Proof.
  intros C Hi. unfold render in *.
  rewrite (renderFrom_slices _ _ C).
  split; [now rewrite length_map, length_seq |].
  exists ((if (i <? 2)%nat then [CatInstances; CatAircraft] else [])
          ++ [CatBuildings; CatHuggingMeshes]).
  split.
  - rewrite nth_error_map, nth_error_seq.
    apply Nat.ltb_lt in Hi. rewrite Hi. reflexivity.
  - destruct (Nat.ltb_spec i 2) as [Hlt | Hge]; cbn [app In].
    + intuition auto.
    + intuition (try discriminate; try lia).
Qed.

End FrameFacts.

(** With three cameras, cascades 0 and 1 enter all four helpers and cascade 2
    only the last two. *)
Lemma three_cascades_categories :
  categoriesBySlice
    (trace (render (sceneWith [cam0; cam1; cam2] [houseTile] [("tree", rock 5)]
                      [plane 6 3]))) =
    [(0%nat, [CatInstances; CatAircraft; CatBuildings; CatHuggingMeshes]);
     (1%nat, [CatInstances; CatAircraft; CatBuildings; CatHuggingMeshes]);
     (2%nat, [CatBuildings; CatHuggingMeshes])].
Proof. reflexivity. Qed.

Lemma cascade_category_policy_witness :
  completes (render (sceneWith [cam0; cam1; cam2] [houseTile] [("tree", rock 5)]
                       [plane 6 3])) = true /\
  exists cs,
    nth_error
      (categoriesBySlice
         (trace (render (sceneWith [cam0; cam1; cam2] [houseTile] [("tree", rock 5)]
                           [plane 6 3])))) 2 = Some (2%nat, cs) /\
    (In CatInstances cs <-> (2 < 2)%nat) /\
    (In CatAircraft cs <-> (2 < 2)%nat) /\
    In CatBuildings cs /\
    In CatHuggingMeshes cs.
Proof.
  split; [reflexivity |].
  apply (cascade_category_policy
           (sceneWith [cam0; cam1; cam2] [houseTile] [("tree", rock 5)] [plane 6 3])
           (i := 2)).
  - reflexivity.
  - cbn. lia.
Defined.

(** ** Culling and skipped items *)

Section DrawFacts.
Context {NM : Numerics}.
Variable p : Pass.
Variable cam : CSMCascadeCamera.

Lemma drawn_flat_map (A : Type) (g : A -> Trace) (h : A -> list nat) (xs : list A) :
  (forall a, In a xs -> drawn (g a) = h a) ->
  drawn (flat_map g xs) = flat_map h xs.
Proof.
  induction xs as [| a xs IH]; intros H; cbn [flat_map]; [reflexivity |].
  rewrite drawn_app, H, IH; auto with datatypes.
Qed.

Lemma buildingItem_drawn (t : Tile) :
  drawn (trace (buildingItem cam t)) = visibleMesh (extrudedMesh t) cam.
Proof.
  unfold buildingItem, visibleMesh. destruct (extrudedMesh t) as [m |]; [| reflexivity].
  destruct (tm_inCameraFrustum m cam); reflexivity.
Qed.

Lemma huggingItem_drawn (trn : Terrain) (t : Tile) :
  drawn (trace (huggingItem trn cam t)) = visibleMesh (huggingMesh t) cam.
Proof.
  unfold huggingItem, visibleMesh. destruct (huggingMesh t) as [m |]; [| reflexivity].
  destruct (tm_inCameraFrustum m cam); reflexivity.
Qed.

Lemma aircraftItem_drawn (a : Aircraft) :
  drawn (trace (aircraftItem cam a)) = flyingMesh a.
Proof.
  unfold aircraftItem, flyingMesh. destruct (ac_mesh a) as [m |]; [| reflexivity].
  destruct (0 <? instanceCount m); reflexivity.
Qed.

Lemma instanceItem_trace (name : string) (o : InstancedObject) (m : AbstractMesh) :
  io_mesh o = Some m ->
  instanceItem cam (name, o) =
    ([UseMaterial (instanceMaterialFor name);
      SetUniform (instanceMaterialFor name) "projectionMatrix" (Some "MainBlock")
        (UMat4 (projectionMatrix cam));
      SetUniform (instanceMaterialFor name) "modelViewMatrix" (Some "MainBlock")
        (UMat4 (Mat4_multiply (matrixWorldInverse cam) (io_matrixWorld o)));
      UpdateUniformBlock (instanceMaterialFor name) "MainBlock";
      Draw (mesh_id m)],
     inr tt).
Proof.
  intros H. unfold instanceItem. rewrite H. reflexivity.
Qed.

Lemma instanceItem_drawn (e : string * InstancedObject) :
  drawn (trace (instanceItem cam e)) = map snd (instanceDraw e).
Proof.
  destruct e as [name o]. unfold instanceDraw. cbn [fst snd].
  destruct (io_mesh o) as [m |] eqn:H.
  - now rewrite (instanceItem_trace name _ H).
  - unfold instanceItem. rewrite H. reflexivity.
Qed.

(** A tile without the mesh a helper draws, or whose mesh fails the frustum
    test, takes no part in the loop: nothing is written, nothing drawn,
    nothing raised. *)
Lemma skipped_tile (trn : Terrain) (t : Tile) :
  (visibleMesh (extrudedMesh t) cam = [] -> buildingItem cam t = ret tt) /\
  (visibleMesh (huggingMesh t) cam = [] -> huggingItem trn cam t = ret tt).
Proof.
  unfold visibleMesh, buildingItem, huggingItem.
  destruct (extrudedMesh t) as [m1 |], (huggingMesh t) as [m2 |];
    try destruct (tm_inCameraFrustum m1 cam); try destruct (tm_inCameraFrustum m2 cam);
    split; intros; try reflexivity; discriminate.
Qed.

(** So does an aircraft without a mesh or without instances. *)
Lemma skipped_aircraft (a : Aircraft) :
  flyingMesh a = [] -> aircraftItem cam a = ret tt.
Proof.
  unfold flyingMesh, aircraftItem.
  destruct (ac_mesh a) as [m |]; [| reflexivity].
  destruct (0 <? instanceCount m); [discriminate | reflexivity].
Qed.

(** C4, as amended: when the building helper, or the hugging-mesh helper,
    runs for a cascade camera, a tile whose extruded mesh, or hugging mesh,
    fails the frustum test of that camera has no uniform written and no draw
    issued for it; the meshes each of the two helpers draws for a camera are
    exactly the meshes that are present and pass the test of that camera,
    and a mesh that passes it is among them, so a mesh culled for one camera
    may still be drawn for another.  Aircraft and instanced objects are not
    frustum-tested: run for any camera, the aircraft helper draws every
    aircraft mesh with instances, and the instanced-object helper, when it
    runs to its end, the mesh of every instanced object. *)
Theorem frustum_culling_of_tiles (t : Tile) (m : TileMesh) :
  (extrudedMesh t = Some m -> tm_inCameraFrustum m cam = false ->
   buildingItem cam t = ret tt) /\
  (huggingMesh t = Some m -> tm_inCameraFrustum m cam = false ->
   huggingItem (terrain (objects p)) cam t = ret tt) /\
  drawn (trace (renderBuildings p cam)) =
    flat_map (fun t' => visibleMesh (extrudedMesh t') cam) (tiles (objects p)) /\
  drawn (trace (renderHuggingMeshes p cam)) =
    flat_map (fun t' => visibleMesh (huggingMesh t') cam) (tiles (objects p)) /\
  (In t (tiles (objects p)) -> extrudedMesh t = Some m ->
   tm_inCameraFrustum m cam = true ->
   In (tm_id m) (drawn (trace (renderBuildings p cam)))) /\
  (In t (tiles (objects p)) -> huggingMesh t = Some m ->
   tm_inCameraFrustum m cam = true ->
   In (tm_id m) (drawn (trace (renderHuggingMeshes p cam)))) /\
  drawn (trace (renderAircraft p cam)) =
    flat_map flyingMesh (instancedAircraft (objects p)) /\
  (completes (renderInstances p cam) = true ->
   drawn (trace (renderInstances p cam)) =
     flat_map (fun e => map snd (instanceDraw e)) (instancedObjects (objects p))).
Proof.
  assert (DB : drawn (trace (renderBuildings p cam)) =
               flat_map (fun t' => visibleMesh (extrudedMesh t') cam) (tiles (objects p))).
  { rewrite renderBuildings_unfold. cbn [trace fst drawn].
    apply drawn_flat_map. intros; apply buildingItem_drawn. }
  assert (DH : drawn (trace (renderHuggingMeshes p cam)) =
               flat_map (fun t' => visibleMesh (huggingMesh t') cam) (tiles (objects p))).
  { rewrite renderHuggingMeshes_unfold. cbn [trace fst drawn].
    apply drawn_flat_map. intros; apply huggingItem_drawn. }
  repeat match goal with |- _ /\ _ => split end.
  - intros E F. apply (skipped_tile (terrain (objects p)) t).
    unfold visibleMesh. now rewrite E, F.
  - intros E F. apply (skipped_tile (terrain (objects p)) t).
    unfold visibleMesh. now rewrite E, F.
  - exact DB.
  - exact DH.
  - intros I E F. rewrite DB. apply in_flat_map. exists t. split; [exact I |].
    unfold visibleMesh. rewrite E, F. now left.
  - intros I E F. rewrite DH. apply in_flat_map. exists t. split; [exact I |].
    unfold visibleMesh. rewrite E, F. now left.
  - rewrite renderAircraft_unfold. cbn [trace fst drawn].
    apply drawn_flat_map. intros; apply aircraftItem_drawn.
  - intros C. rewrite (renderInstances_trace _ _ C). cbn [drawn].
    apply drawn_flat_map. intros; apply instanceItem_drawn.
Qed.

End DrawFacts.

(** ** Material binds and uniform writes *)

Section BindFacts.
Context {NM : Numerics}.
Variable p : Pass.
Variable cam : CSMCascadeCamera.

Lemma count_flat_map (A B : Type) (f : Cmd -> bool) (g : A -> Trace)
    (h : A -> list B) (xs : list A) :
  (forall a, In a xs -> count f (g a) = List.length (h a)) ->
  count f (flat_map g xs) = List.length (flat_map h xs).
Proof.
  induction xs as [| a xs IH]; intros H; cbn [flat_map]; [reflexivity |].
  rewrite count_app, length_app, H, IH; auto with datatypes.
Qed.

Lemma count_flat_map_quiet (A : Type) (f : Cmd -> bool) (g : A -> Trace) (xs : list A) :
  (forall a, count f (g a) = 0%nat) -> count f (flat_map g xs) = 0%nat.
Proof.
  intros H. induction xs as [| a xs IH]; cbn [flat_map]; [reflexivity |].
  now rewrite count_app, H, IH.
Qed.

Lemma length_flat_map_single (A B : Type) (h : A -> list B) (xs : list A) :
  (forall a, In a xs -> List.length (h a) = 1%nat) ->
  List.length (flat_map h xs) = List.length xs.
Proof.
  induction xs as [| a xs IH]; intros H; cbn [flat_map]; [reflexivity |].
  rewrite length_app, H, IH; auto with datatypes.
Qed.

(** The iterations over the tiles bind no material and touch neither the
    projection matrix, nor the ring-height texture, nor the PerMaterial
    block. *)
Lemma buildingItem_quiet (t : Tile) :
  count isAnyBind (trace (buildingItem cam t)) = 0%nat /\
  count (isWrite "projectionMatrix") (trace (buildingItem cam t)) = 0%nat /\
  count (isFlush "PerMaterial") (trace (buildingItem cam t)) = 0%nat.
Proof.
  unfold buildingItem. destruct (extrudedMesh t) as [m |]; [| now cbn].
  destruct (tm_inCameraFrustum m cam); now cbn.
Qed.

Lemma huggingItem_quiet (trn : Terrain) (t : Tile) :
  count isAnyBind (trace (huggingItem trn cam t)) = 0%nat /\
  count (isWrite "projectionMatrix") (trace (huggingItem trn cam t)) = 0%nat /\
  count (isWrite "tRingHeight") (trace (huggingItem trn cam t)) = 0%nat /\
  count (isFlush "PerMaterial") (trace (huggingItem trn cam t)) = 0%nat.
Proof.
  unfold huggingItem. destruct (huggingMesh t) as [m |]; [| now cbn].
  destruct (tm_inCameraFrustum m cam); now cbn.
Qed.

(** An aircraft binds the material, writes the projection matrix and
    flushes the block as many times as it draws: once or not at all. *)
Lemma aircraftItem_counts (a : Aircraft) :
  count (isBind aircraftMaterial) (trace (aircraftItem cam a)) =
    List.length (flyingMesh a) /\
  count (isWrite "projectionMatrix") (trace (aircraftItem cam a)) =
    List.length (flyingMesh a) /\
  count (isFlush "MainBlock") (trace (aircraftItem cam a)) =
    List.length (flyingMesh a).
Proof.
  unfold aircraftItem, flyingMesh. destruct (ac_mesh a) as [m |]; [| now cbn].
  destruct (0 <? instanceCount m); now cbn.
Qed.

Lemma instanceItem_counts (e : string * InstancedObject) :
  hasMesh e = true ->
  count isAnyBind (trace (instanceItem cam e)) = 1%nat /\
  count (isWrite "projectionMatrix") (trace (instanceItem cam e)) = 1%nat /\
  count (isFlush "MainBlock") (trace (instanceItem cam e)) = 1%nat /\
  List.length (instanceDraw e) = 1%nat.
Proof.
  destruct e as [name o]. unfold hasMesh, instanceDraw. cbn [fst snd].
  destruct (io_mesh o) as [m |] eqn:H; [| discriminate].
  intros _. rewrite (instanceItem_trace cam name _ H). now cbn.
Qed.

(** C7: an aircraft with a mesh and no instance issues nothing, neither a
    bind nor a write nor a draw; the helper behaves as if the aircraft were
    not in the list; the aircraft material is bound once per aircraft that
    has a mesh with instances. *)
Theorem aircraft_without_instances_is_skipped
    (a : Aircraft) (m : AbstractMesh) (l1 l2 : list Aircraft) :
  ac_mesh a = Some m ->
  instanceCount m = 0 ->
  aircraftItem cam a = ret tt /\
  (instancedAircraft (objects p) = l1 ++ a :: l2 ->
   renderAircraft p cam = renderAircraft (set_instancedAircraft (l1 ++ l2) p) cam) /\
  count (isBind aircraftMaterial) (trace (renderAircraft p cam)) =
    List.length (flat_map flyingMesh (instancedAircraft (objects p))).
Proof.
  intros Hm Hc.
  assert (Hskip : aircraftItem cam a = ret tt).
  { apply skipped_aircraft. unfold flyingMesh. now rewrite Hm, Hc. }
  split; [exact Hskip |]. split.
  - intros Hl. unfold renderAircraft. cbn [set_instancedAircraft objects instancedAircraft].
    rewrite Hl. now rewrite (forEach_skip _ l1 l2 a Hskip).
  - rewrite renderAircraft_unfold. cbn [trace fst]. change (?c :: ?t) with ([c] ++ t).
    rewrite count_app. cbn [count filter isBind List.length Nat.add].
    apply count_flat_map. intros a' _. apply aircraftItem_counts.
Qed.

(** C5, as amended: the building and the hugging-mesh helpers bind their
    material, write the projection matrix and flush the PerMaterial block
    exactly once per cascade, in the commands that precede the loop over the
    tiles (the hugging-mesh helper writes the ring-height texture once as
    well, before the bind).  The aircraft helper binds, writes the projection
    matrix and flushes the MainBlock block once per aircraft it draws, and
    the instanced-object helper, when it runs to its end, once per instanced
    object, each of which it draws. *)
Theorem binds_per_cascade_and_per_item :
  (exists items,
     trace (renderBuildings p cam) =
       [Invoke CatBuildings;
        UseMaterial buildingDepthMaterial;
        SetUniform buildingDepthMaterial "projectionMatrix" (Some "PerMaterial")
          (UMat4 (projectionMatrix cam));
        UpdateUniformBlock buildingDepthMaterial "PerMaterial"] ++ items /\
     count isAnyBind items = 0%nat /\
     count (isWrite "projectionMatrix") items = 0%nat /\
     count (isFlush "PerMaterial") items = 0%nat) /\
  (count isAnyBind (trace (renderBuildings p cam)) = 1%nat /\
   count (isWrite "projectionMatrix") (trace (renderBuildings p cam)) = 1%nat /\
   count (isFlush "PerMaterial") (trace (renderBuildings p cam)) = 1%nat) /\
  (exists items,
     trace (renderHuggingMeshes p cam) =
       [Invoke CatHuggingMeshes;
        SetUniform huggingMeshMaterial "tRingHeight" None
          (UTexture (terrainRingHeight p));
        UseMaterial huggingMeshMaterial;
        SetUniform huggingMeshMaterial "projectionMatrix" (Some "PerMaterial")
          (UMat4 (projectionMatrix cam));
        UpdateUniformBlock huggingMeshMaterial "PerMaterial"] ++ items /\
     count isAnyBind items = 0%nat /\
     count (isWrite "projectionMatrix") items = 0%nat /\
     count (isWrite "tRingHeight") items = 0%nat /\
     count (isFlush "PerMaterial") items = 0%nat) /\
  (count isAnyBind (trace (renderHuggingMeshes p cam)) = 1%nat /\
   count (isWrite "projectionMatrix") (trace (renderHuggingMeshes p cam)) = 1%nat /\
   count (isWrite "tRingHeight") (trace (renderHuggingMeshes p cam)) = 1%nat /\
   count (isFlush "PerMaterial") (trace (renderHuggingMeshes p cam)) = 1%nat) /\
  (count (isBind aircraftMaterial) (trace (renderAircraft p cam)) =
     List.length (drawn (trace (renderAircraft p cam))) /\
   count (isWrite "projectionMatrix") (trace (renderAircraft p cam)) =
     List.length (drawn (trace (renderAircraft p cam))) /\
   count (isFlush "MainBlock") (trace (renderAircraft p cam)) =
     List.length (drawn (trace (renderAircraft p cam)))) /\
  (completes (renderInstances p cam) = true ->
   count isAnyBind (trace (renderInstances p cam)) =
     List.length (instancedObjects (objects p)) /\
   count (isWrite "projectionMatrix") (trace (renderInstances p cam)) =
     List.length (instancedObjects (objects p)) /\
   count (isFlush "MainBlock") (trace (renderInstances p cam)) =
     List.length (instancedObjects (objects p)) /\
   List.length (drawn (trace (renderInstances p cam))) =
     List.length (instancedObjects (objects p))).
Proof.
  assert (QB : forall f,
             (forall t, count f (trace (buildingItem cam t)) = 0%nat) ->
             count f (flat_map (fun t => trace (buildingItem cam t))
                        (tiles (objects p))) = 0%nat).
  { intros f H. now apply count_flat_map_quiet. }
  assert (QH : forall f,
             (forall t, count f (trace (huggingItem (terrain (objects p)) cam t)) = 0%nat) ->
             count f (flat_map (fun t => trace (huggingItem (terrain (objects p)) cam t))
                        (tiles (objects p))) = 0%nat).
  { intros f H. now apply count_flat_map_quiet. }
  assert (B1 := QB isAnyBind (fun t => proj1 (buildingItem_quiet t))).
  assert (B2 := QB (isWrite "projectionMatrix")
                  (fun t => proj1 (proj2 (buildingItem_quiet t)))).
  assert (B3 := QB (isFlush "PerMaterial")
                  (fun t => proj2 (proj2 (buildingItem_quiet t)))).
  assert (H1 := QH isAnyBind (fun t => proj1 (huggingItem_quiet _ t))).
  assert (H2 := QH (isWrite "projectionMatrix")
                  (fun t => proj1 (proj2 (huggingItem_quiet _ t)))).
  assert (H3 := QH (isWrite "tRingHeight")
                  (fun t => proj1 (proj2 (proj2 (huggingItem_quiet _ t))))).
  assert (H4 := QH (isFlush "PerMaterial")
                  (fun t => proj2 (proj2 (proj2 (huggingItem_quiet _ t))))).
  rewrite renderBuildings_unfold, renderHuggingMeshes_unfold. cbn [trace fst].
  split; [eexists; split; [reflexivity | auto] |].
  split.
  { repeat split;
      match goal with
      | |- count ?f (?a :: ?b :: ?c :: ?d :: ?t) = _ =>
          change (a :: b :: c :: d :: t) with ([a; b; c; d] ++ t)
      end; rewrite count_app; [rewrite B1 | rewrite B2 | rewrite B3]; reflexivity. }
  split; [eexists; split; [reflexivity | auto] |].
  split.
  { repeat split;
      match goal with
      | |- count ?f (?a :: ?b :: ?c :: ?d :: ?e :: ?t) = _ =>
          change (a :: b :: c :: d :: e :: t) with ([a; b; c; d; e] ++ t)
      end; rewrite count_app; [rewrite H1 | rewrite H2 | rewrite H3 | rewrite H4];
      reflexivity. }
  split.
  - rewrite renderAircraft_unfold. cbn [trace fst drawn].
    rewrite (drawn_flat_map _ flyingMesh _ (fun a _ => aircraftItem_drawn cam a)).
    repeat split;
      match goal with
      | |- count ?f (?a :: ?t) = _ => change (a :: t) with ([a] ++ t)
      end; rewrite count_app; cbn [count filter isBind isWrite isFlush List.length Nat.add];
      apply count_flat_map; intros a _; apply aircraftItem_counts.
  - intros C. rewrite (renderInstances_trace _ _ C). cbn [drawn].
    rewrite renderInstances_completes in C.
    assert (HM : forall e, In e (instancedObjects (objects p)) -> hasMesh e = true).
    { now apply forallb_forall. }
    rewrite (drawn_flat_map _ (fun e => map snd (instanceDraw e)) _
               (fun e _ => instanceItem_drawn cam e)).
    assert (L : List.length (flat_map instanceDraw (instancedObjects (objects p))) =
                List.length (instancedObjects (objects p))).
    { apply length_flat_map_single. intros e I. now apply instanceItem_counts, HM. }
    repeat split;
      try (match goal with
           | |- count ?f (?a :: ?t) = _ => change (a :: t) with ([a] ++ t)
           end; rewrite count_app;
           cbn [count filter isAnyBind isWrite isFlush List.length Nat.add];
           rewrite <- L; apply count_flat_map; intros e I;
           destruct (instanceItem_counts e (HM e I)) as (E1 & E2 & E3 & E4);
           now rewrite ?E1, ?E2, ?E3, ?E4).
    rewrite <- L. clear L HM C.
    induction (instancedObjects (objects p)) as [| e l IH]; cbn [flat_map];
      [reflexivity |].
    rewrite !length_app, length_map. f_equal. exact IH.
Qed.

End BindFacts.

(** ** The material of an instanced object *)

Section DispatchFacts.
Context {NM : Numerics}.
Variable p : Pass.
Variable cam : CSMCascadeCamera.

(** The draws of the iterations over instanced objects that all have a mesh,
    each with the material bound when it ran. *)
Lemma instances_drawnWith (xs : list (string * InstancedObject)) (cur : option Material) :
  forallb hasMesh xs = true ->
  drawnWith cur (flat_map (fun e => trace (instanceItem cam e)) xs) =
    flat_map instanceDraw xs.
Proof.
  revert cur. induction xs as [| [name o] xs IH]; intros cur H; [reflexivity |].
  cbn [forallb] in H. apply andb_prop in H as [Ho Hxs].
  unfold hasMesh in Ho. cbn [snd] in Ho.
  destruct (io_mesh o) as [m |] eqn:E; [| discriminate].
  cbn [flat_map]. rewrite (instanceItem_trace cam name _ E).
  unfold instanceDraw at 1. cbn [fst snd trace app drawnWith]. rewrite E.
  cbn [app]. f_equal. apply IH, Hxs.
Qed.

(** C8: the material chosen for an instanced object is the tree material
    exactly when its name is 'tree', and the instance material for any other
    name, 'rock' and the empty name included; in a helper that runs to its
    end each mesh is drawn with the material its entry's name selects
    bound. *)
Theorem instance_material_dispatch (name : string) :
  (instanceMaterialFor name = treeMaterial <-> name = "tree") /\
  (name <> "tree" -> instanceMaterialFor name = instanceMaterial) /\
  instanceMaterialFor "tree" = treeMaterial /\
  instanceMaterialFor "rock" = instanceMaterial /\
  instanceMaterialFor "" = instanceMaterial /\
  (completes (renderInstances p cam) = true ->
   drawnWith None (trace (renderInstances p cam)) =
     flat_map instanceDraw (instancedObjects (objects p))).
Proof.
  assert (D : completes (renderInstances p cam) = true ->
              drawnWith None (trace (renderInstances p cam)) =
                flat_map instanceDraw (instancedObjects (objects p))).
  { intros C. rewrite (renderInstances_trace _ _ C). cbn [drawnWith].
    apply instances_drawnWith. now rewrite <- renderInstances_completes with (cam := cam). }
  unfold instanceMaterialFor at 1 2.
  destruct (String.eqb_spec name "tree") as [-> | Hne].
  - split; [split; reflexivity |]. split; [intros H; now contradiction H |].
    repeat (split; [reflexivity |]). exact D.
  - split; [split; [discriminate | intros H; now contradiction Hne] |].
    split; [reflexivity |]. repeat (split; [reflexivity |]). exact D.
Qed.

End DispatchFacts.

(** ** WaterMask *)

Section WaterMaskFacts.
Context {NM : Numerics} {R : Type} {AR : AbstractRenderer R}.

Lemma isMeshReady_spec (w : WaterMask) : isMeshReady w = true <-> wm_mesh w <> None.
Proof.
  unfold isMeshReady. destruct (wm_mesh w); split; congruence.
Qed.

(** C10: [isMeshReady] answers true exactly when the mesh is there;
    [updateMesh] on a mask without a mesh stores the mesh the renderer
    creates from the position attribute over the vertices buffer, and keeps
    the buffer; on a mask with a mesh it changes neither the mask nor the
    renderer; so the mesh is ready after one call, and a second call changes
    nothing. *)
Theorem updateMesh_creates_once (renderer : R) (w : WaterMask) :
  (isMeshReady w = true <-> wm_mesh w <> None) /\
  isMeshReady (WaterMask_new (verticesBuffer w)) = false /\
  isMeshReady (fst (updateMesh renderer w)) = true /\
  (wm_mesh w = None ->
   let (attribute, r1) := createAttribute (positionAttribute w) renderer in
   let (mesh, r2) := createMesh [attribute] r1 in
   updateMesh renderer w =
     ({| wm_mesh := Some mesh; verticesBuffer := verticesBuffer w |}, r2) /\
   attr_data (positionAttribute w) = verticesBuffer w) /\
  (wm_mesh w <> None -> updateMesh renderer w = (w, renderer)) /\
  (forall renderer', updateMesh renderer' (fst (updateMesh renderer w)) =
                     (fst (updateMesh renderer w), renderer')).
Proof.
  split; [apply isMeshReady_spec |].
  split; [reflexivity |].
  unfold updateMesh, isMeshReady.
  destruct (wm_mesh w) as [m |] eqn:E.
  - cbn [fst]. rewrite E. repeat split; congruence.
  - destruct (createAttribute (positionAttribute w) renderer) as [attribute r1].
    destruct (createMesh [attribute] r1) as [mesh r2].
    cbn. repeat split; congruence.
Qed.

End WaterMaskFacts.

(** * The statements on concrete scenes *)

(** C4, the claim as written fails: an instanced object and an aircraft
    whose frustum test answers false for the only camera are both drawn in
    its cascade. *)
Lemma instanced_and_aircraft_drawn_outside_frustum :
  io_inCameraFrustum (rock 7) cam0 = false /\
  ac_inCameraFrustum (plane 8 2) cam0 = false /\
  drawn (trace (render (sceneWith [cam0] [] [("rock", rock 7)] [plane 8 2]))) =
    [7%nat; 8%nat].
Proof. repeat split. Qed.

Lemma frustum_culling_of_tiles_witness :
  buildingItem cam1 houseTile = ret tt /\
  In 1%nat (drawn (trace (renderBuildings
                            (sceneWith [cam0; cam1] [emptyTile; houseTile] [] []) cam0))).
Proof.
  split.
  - apply (proj1 (frustum_culling_of_tiles
                    (sceneWith [cam0; cam1] [emptyTile; houseTile] [] []) cam1 houseTile
                    {| tm_id := 1; tm_inCameraFrustum := nearOnly |}));
      reflexivity.
  - apply (proj1 (proj2 (proj2 (proj2 (proj2
             (frustum_culling_of_tiles
                (sceneWith [cam0; cam1] [emptyTile; houseTile] [] []) cam0 houseTile
                {| tm_id := 1; tm_inCameraFrustum := nearOnly |}))))));
      [cbn; auto | reflexivity | reflexivity].
Defined.

(** C5, the claim as written fails: with two instanced objects the instance
    material is bound twice and the projection matrix written twice in one
    cascade, and with two aircraft the aircraft material is bound twice. *)
Lemma instanced_materials_bound_per_item :
  count (isBind instanceMaterial)
    (trace (renderInstances
              (sceneWith [cam0] [] [("rock", rock 7); ("bush", rock 9)] []) cam0)) = 2%nat /\
  count (isWrite "projectionMatrix")
    (trace (renderInstances
              (sceneWith [cam0] [] [("rock", rock 7); ("bush", rock 9)] []) cam0)) = 2%nat /\
  count (isBind aircraftMaterial)
    (trace (renderAircraft
              (sceneWith [cam0] [] [] [plane 8 2; plane 9 1]) cam0)) = 2%nat.
Proof. repeat split. Qed.

Lemma binds_per_cascade_and_per_item_witness :
  completes (renderInstances
               (sceneWith [cam0] [houseTile] [("rock", rock 7); ("bush", rock 9)] [])
               cam0) = true /\
  count isAnyBind
    (trace (renderBuildings
              (sceneWith [cam0] [houseTile] [("rock", rock 7); ("bush", rock 9)] [])
              cam0)) = 1%nat /\
  count isAnyBind
    (trace (renderInstances
              (sceneWith [cam0] [houseTile] [("rock", rock 7); ("bush", rock 9)] [])
              cam0)) = 2%nat.
Proof.
  pose proof (binds_per_cascade_and_per_item
                (sceneWith [cam0] [houseTile] [("rock", rock 7); ("bush", rock 9)] [])
                cam0) as (_ & (B & _) & _ & _ & _ & I).
  split; [reflexivity |]. split; [exact B |].
  exact (proj1 (I eq_refl)).
Defined.

(** C6, the code at an instanced object without a mesh: the instance
    material is bound, both uniforms are written and the block is flushed,
    then [draw()] is called on [null] and the frame stops there, before the
    aircraft, the buildings and the hugging meshes. *)
Theorem meshless_instanced_object_raises :
  render (sceneWith [cam0] [houseTile] [("rock", meshlessObject)] [plane 8 2]) =
    ([SetSlice 0;
      BeginRenderPass;
      Invoke CatInstances;
      UseMaterial instanceMaterial;
      SetUniform instanceMaterial "projectionMatrix" (Some "MainBlock") (UMat4 2%Z);
      SetUniform instanceMaterial "modelViewMatrix" (Some "MainBlock") (UMat4 87%Z);
      UpdateUniformBlock instanceMaterial "MainBlock"],
     inl TypeError).
Proof. reflexivity. Qed.

Lemma aircraft_without_instances_is_skipped_witness :
  instanceCount {| mesh_id := 8; instanceCount := 0 |} = 0 /\
  aircraftItem cam0 (plane 8 0) = ret tt /\
  renderAircraft (sceneWith [cam0] [] [] [plane 6 3; plane 8 0; plane 9 1]) cam0 =
    renderAircraft (sceneWith [cam0] [] [] [plane 6 3; plane 9 1]) cam0.
Proof.
  pose proof (aircraft_without_instances_is_skipped
                (sceneWith [cam0] [] [] [plane 6 3; plane 8 0; plane 9 1]) cam0
                (plane 8 0) [plane 6 3] [plane 9 1] eq_refl eq_refl) as (S & L & _).
  split; [reflexivity |]. split; [exact S |]. exact (L eq_refl).
Defined.

Lemma instance_material_dispatch_witness :
  completes (renderInstances
               (sceneWith [cam0] [] [("tree", rock 5); ("rock", rock 7); ("", rock 9)] [])
               cam0) = true /\
  drawnWith None
    (trace (renderInstances
              (sceneWith [cam0] [] [("tree", rock 5); ("rock", rock 7); ("", rock 9)] [])
              cam0)) =
    [(Some treeMaterial, 5%nat); (Some instanceMaterial, 7%nat);
     (Some instanceMaterial, 9%nat)].
Proof.
  split; [reflexivity |].
  apply (proj2 (proj2 (proj2 (proj2 (proj2
           (instance_material_dispatch
              (sceneWith [cam0] [] [("tree", rock 5); ("rock", rock 7); ("", rock 9)] [])
              cam0 "rock")))))).
  reflexivity.
Defined.

Lemma updateMesh_creates_once_witness :
  wm_mesh (WaterMask_new [1; 2; 3; 4]) = None /\
  isMeshReady (fst (updateMesh 0%nat (WaterMask_new [1; 2; 3; 4]))) = true /\
  updateMesh 5%nat (fst (updateMesh 0%nat (WaterMask_new [1; 2; 3; 4]))) =
    (fst (updateMesh 0%nat (WaterMask_new [1; 2; 3; 4])), 5%nat) /\
  updateMesh 0%nat (WaterMask_new [1; 2; 3; 4]) =
    ({| wm_mesh := Some {| mesh_id := 0; instanceCount := 0 |};
        verticesBuffer := [1; 2; 3; 4] |}, 1%nat).
Proof.
  pose proof (updateMesh_creates_once (AR := CountingRenderer) 0%nat
                (WaterMask_new [1; 2; 3; 4])) as (_ & _ & Rdy & Mk & _ & Again).
  split; [reflexivity |]. split; [exact Rdy |]. split; [exact (Again 5%nat) |].
  exact (proj1 (Mk eq_refl)).
Defined.

(** * Further facts about the frame *)

Section FrameShape.
Context {NM : Numerics}.
Variable p : Pass.

Lemma renderCascade_completes (i : nat) (cam : CSMCascadeCamera) :
  completes (renderCascade p i cam) =
    if (i <? 2)%nat then forallb hasMesh (instancedObjects (objects p)) else true.
Proof.
  unfold renderCascade. rewrite !completes_bind.
  rewrite renderBuildings_completes, renderHuggingMeshes_completes.
  destruct (i <? 2)%nat; cbn [completes emit ret snd andb].
  - rewrite completes_bind, renderAircraft_completes, renderInstances_completes.
    now rewrite !andb_true_r.
  - reflexivity.
Qed.

(** The commands of one turn of the loop that runs to its end. *)
Lemma renderCascade_trace (i : nat) (cam : CSMCascadeCamera) :
  completes (renderCascade p i cam) = true ->
  trace (renderCascade p i cam) =
    SetSlice i :: BeginRenderPass ::
    (if (i <? 2)%nat
     then trace (renderInstances p cam) ++ trace (renderAircraft p cam) else [])
    ++ trace (renderBuildings p cam) ++ trace (renderHuggingMeshes p cam).
Proof.
  intros C. rewrite renderCascade_completes in C.
  unfold renderCascade. rewrite !bind_emit. cbn [trace fst].
  do 2 f_equal. revert C. destruct (i <? 2)%nat; intros C.
  - rewrite <- renderInstances_completes with (cam := cam) in C.
    assert (C1 : completes (renderInstances p cam ;; renderAircraft p cam) = true).
    { now rewrite completes_bind, C, renderAircraft_completes. }
    rewrite (@bind_completes _ _ _ _
               (renderBuildings p cam ;; renderHuggingMeshes p cam) C1).
    rewrite (@bind_completes _ _ _ _ (renderHuggingMeshes p cam)
               (renderBuildings_completes p cam)).
    now rewrite (@bind_completes _ _ _ _ (renderAircraft p cam) C).
  - rewrite bind_ret.
    now rewrite (@bind_completes _ _ _ _ (renderHuggingMeshes p cam)
                   (renderBuildings_completes p cam)).
Qed.

(** The commands of a turn of the loop that raises: those of the helper of
    the instanced objects and nothing after them. *)
Lemma renderCascade_trace_raises (i : nat) (cam : CSMCascadeCamera) :
  completes (renderCascade p i cam) = false ->
  (i < 2)%nat /\
  trace (renderCascade p i cam) =
    SetSlice i :: BeginRenderPass :: trace (renderInstances p cam).
Proof.
  intros C. rewrite renderCascade_completes in C.
  destruct (Nat.ltb_spec i 2) as [Hlt | Hge]; [| discriminate].
  split; [exact Hlt |].
  rewrite <- renderInstances_completes with (cam := cam) in C.
  unfold renderCascade. rewrite !bind_emit. cbn [trace fst].
  apply Nat.ltb_lt in Hlt. rewrite Hlt. do 2 f_equal.
  destruct (@bind_raises _ _ _ (renderInstances p cam) (renderAircraft p cam) C)
    as [T1 C1].
  destruct (@bind_raises _ _ _ (renderInstances p cam ;; renderAircraft p cam)
              (renderBuildings p cam ;; renderHuggingMeshes p cam) C1) as [T2 _].
  now rewrite T2, T1.
Qed.

Lemma renderFrom_completes (cams : list CSMCascadeCamera) (i : nat) :
  forallb hasMesh (instancedObjects (objects p)) = true ->
  completes (renderFrom p i cams) = true.
Proof.
  intros H. revert i. induction cams as [| cam rest IH]; intros i; [reflexivity |].
  cbn [renderFrom]. rewrite completes_bind, renderCascade_completes, H, IH.
  now destruct (i <? 2)%nat.
Qed.

(** X1: a frame runs to its end exactly when there is no cascade camera or
    every instanced object has a mesh; tiles and aircraft never make it
    raise. *)
Theorem render_completes_iff :
  completes (render p) = true <->
  cascadeCameras (passCsm p) = [] \/
  forallb hasMesh (instancedObjects (objects p)) = true.
Proof.
  unfold render. split.
  - destruct (cascadeCameras (passCsm p)) as [| cam rest]; [now left |].
    intros C. right. cbn [renderFrom] in C. rewrite completes_bind in C.
    apply andb_prop in C as [C _]. now rewrite renderCascade_completes in C.
  - intros [-> | H]; [reflexivity | now apply renderFrom_completes].
Qed.

(** The helper of the instanced objects uses no material of the tiles or of
    the aircraft. *)
Lemma renderInstances_materials (cam : CSMCascadeCamera) :
  count (isBind buildingDepthMaterial) (trace (renderInstances p cam)) = 0%nat /\
  count (isBind huggingMeshMaterial) (trace (renderInstances p cam)) = 0%nat /\
  count (isBind aircraftMaterial) (trace (renderInstances p cam)) = 0%nat.
Proof.
  rewrite renderInstances_unfold. cbn [trace fst].
  repeat split; apply count_none; cbn [forallb isBind negb andb];
    apply forEach_forallb; intros [name o]; unfold instanceItem, instanceMaterialFor;
    destruct (String.eqb name "tree"), (io_mesh o); reflexivity.
Qed.

(** X2: a frame that raises does so in its first cascade: slice 0 is the
    only one assigned, the helper of the instanced objects the only one
    entered, and no material of the aircraft, the buildings or the hugging
    meshes is bound, so none of them is drawn in any cascade. *)
Theorem render_raises_in_first_cascade :
  completes (render p) = false ->
  exists cam rest,
    cascadeCameras (passCsm p) = cam :: rest /\
    trace (render p) = SetSlice 0 :: BeginRenderPass :: trace (renderInstances p cam) /\
    categoriesBySlice (trace (render p)) = [(0%nat, [CatInstances])] /\
    count (isBind aircraftMaterial) (trace (render p)) = 0%nat /\
    count (isBind buildingDepthMaterial) (trace (render p)) = 0%nat /\
    count (isBind huggingMeshMaterial) (trace (render p)) = 0%nat.
Proof.
  unfold render. destruct (cascadeCameras (passCsm p)) as [| cam rest];
    [discriminate |].
  intros C. exists cam, rest. split; [reflexivity |].
  assert (C0 : completes (renderCascade p 0 cam) = false).
  { rewrite renderCascade_completes. cbn [Nat.ltb Nat.leb].
    destruct (forallb hasMesh (instancedObjects (objects p))) eqn:H; [| reflexivity].
    now rewrite (renderFrom_completes (cam :: rest) 0 H) in C. }
  assert (T : trace (renderFrom p 0 (cam :: rest)) =
              SetSlice 0 :: BeginRenderPass :: trace (renderInstances p cam)).
  { cbn [renderFrom].
    destruct (@bind_raises _ _ _ (renderCascade p 0 cam) (renderFrom p 1 rest) C0)
      as [-> _].
    apply renderCascade_trace_raises, C0. }
  rewrite T. split; [reflexivity |].
  destruct (helpers_invoked p cam) as [[II _] _].
  destruct (helpers_noSlice p cam) as [[NI _] _].
  destruct (renderInstances_materials cam) as (MB & MH & MA).
  split.
  - unfold categoriesBySlice. cbn [bySlice].
    rewrite <- (app_nil_r (trace (renderInstances p cam))).
    rewrite bySlice_app by exact NI. now rewrite II.
  - unfold count in *. cbn [filter isBind]. auto.
Qed.

End FrameShape.

(** ** Draws and the uniforms they depend on *)

Section GpuFacts.
Context {NM : Numerics}.

Lemma gpuRun_app (t1 t2 : Trace) (g : Gpu) :
  gpuRun g (t1 ++ t2) =
    match gpuRun g t1 with Some g' => gpuRun g' t2 | None => None end.
Proof.
  revert g. induction t1 as [| c t1 IH]; intros g; cbn [app gpuRun]; [reflexivity |].
  destruct (gpuStep g c); [apply IH | reflexivity].
Qed.

Lemma gpuSafe_nil (I : Gpu -> Prop) : gpuSafe I I [].
Proof. intros g H. exists g. now split. Qed.

Lemma gpuSafe_app (I J K : Gpu -> Prop) (t1 t2 : Trace) :
  gpuSafe I J t1 -> gpuSafe J K t2 -> gpuSafe I K (t1 ++ t2).
Proof.
  intros S1 S2 g Hg. destruct (S1 g Hg) as (g1 & R1 & H1).
  destruct (S2 g1 H1) as (g2 & R2 & H2).
  exists g2. split; [| exact H2]. now rewrite gpuRun_app, R1.
Qed.

(** Whether or not the first part raises. *)
Lemma gpuSafe_bind (I : Gpu -> Prop) (A B : Type) (m : M A) (n : M B) :
  gpuSafe I I (trace m) -> gpuSafe I I (trace n) -> gpuSafe I I (trace (m ;; n)).
Proof.
  intros Sm Sn. destruct (completes m) eqn:C.
  - rewrite bind_completes by exact C. cbn [trace fst]. now apply gpuSafe_app with I.
  - now destruct (@bind_raises _ _ _ m n C) as [-> _].
Qed.

Lemma gpuSafe_forEach (I : Gpu -> Prop) (A : Type) (body : A -> M unit) (xs : list A) :
  (forall a, gpuSafe I I (trace (body a))) ->
  gpuSafe I I (trace (forEach xs body)).
Proof.
  intros Hb. induction xs as [| a xs IH]; cbn [forEach].
  - apply gpuSafe_nil.
  - now apply gpuSafe_bind.
Qed.

Lemma gpuSafe_flat_map (I : Gpu -> Prop) (A : Type) (f : A -> Trace) (xs : list A) :
  (forall a, gpuSafe I I (f a)) -> gpuSafe I I (flat_map f xs).
Proof.
  intros Hb. induction xs as [| a xs IH]; cbn [flat_map].
  - apply gpuSafe_nil.
  - now apply gpuSafe_app with I.
Qed.

(** A command that is neither a write, nor a flush, nor a draw. *)
Lemma gpuSafe_marker (c : Cmd) :
  isPlain c = false \/ c = BeginRenderPass -> gpuSafe gpuClean gpuClean [c].
Proof.
  intros H g Hg. exists g. split; [| exact Hg].
  destruct H as [H | ->]; [destruct c; try discriminate |]; reflexivity.
Qed.

Ltac gpu_item :=
  let g := fresh "g" in
  intros g; destruct g as [b d]; unfold gpuClean, gpuCleanWith; cbn;
  intros; repeat match goal with H : _ /\ _ |- _ => destruct H end; subst;
  eexists; split; [reflexivity | cbn; auto].

Lemma buildingItem_gpuSafe (cam : CSMCascadeCamera) (t : Tile) :
  gpuSafe (gpuCleanWith buildingDepthMaterial) (gpuCleanWith buildingDepthMaterial)
    (trace (buildingItem cam t)).
Proof.
  unfold buildingItem. destruct (extrudedMesh t) as [m |];
    [destruct (tm_inCameraFrustum m cam) |]; gpu_item.
Qed.

Lemma huggingItem_gpuSafe (trn : Terrain) (cam : CSMCascadeCamera) (t : Tile) :
  gpuSafe (gpuCleanWith huggingMeshMaterial) (gpuCleanWith huggingMeshMaterial)
    (trace (huggingItem trn cam t)).
Proof.
  unfold huggingItem. destruct (huggingMesh t) as [m |];
    [destruct (tm_inCameraFrustum m cam) |]; gpu_item.
Qed.

Lemma aircraftItem_gpuSafe (cam : CSMCascadeCamera) (a : Aircraft) :
  gpuSafe gpuClean gpuClean (trace (aircraftItem cam a)).
Proof.
  unfold aircraftItem. destruct (ac_mesh a) as [m |];
    [destruct (0 <? instanceCount m) |]; gpu_item.
Qed.

Lemma instanceItem_gpuSafe (cam : CSMCascadeCamera) (e : string * InstancedObject) :
  gpuSafe gpuClean gpuClean (trace (instanceItem cam e)).
Proof.
  destruct e as [name o]. unfold instanceItem, instanceMaterialFor.
  destruct (String.eqb name "tree"), (io_mesh o); gpu_item.
Qed.

Variable p : Pass.

Lemma helpers_gpuSafe (cam : CSMCascadeCamera) :
  (gpuSafe gpuClean gpuClean (trace (renderInstances p cam)) /\
   gpuSafe gpuClean gpuClean (trace (renderAircraft p cam))) /\
  (gpuSafe gpuClean gpuClean (trace (renderBuildings p cam)) /\
   gpuSafe gpuClean gpuClean (trace (renderHuggingMeshes p cam))).
Proof.
  rewrite renderInstances_unfold, renderAircraft_unfold, renderBuildings_unfold,
    renderHuggingMeshes_unfold. cbn [trace fst].
  repeat split.
  - apply (gpuSafe_app (J := gpuClean) (t1 := [Invoke CatInstances])).
    + apply gpuSafe_marker. now left.
    + apply gpuSafe_forEach. intros e. apply instanceItem_gpuSafe.
  - apply (gpuSafe_app (J := gpuClean) (t1 := [Invoke CatAircraft])).
    + apply gpuSafe_marker. now left.
    + apply gpuSafe_flat_map. intros a. apply aircraftItem_gpuSafe.
  - match goal with
    | |- gpuSafe _ _ (?a :: ?b :: ?c :: ?d :: ?t) =>
        change (a :: b :: c :: d :: t) with ([a; b; c; d] ++ t)
    end.
    apply gpuSafe_app with (J := gpuCleanWith buildingDepthMaterial).
    + gpu_item.
    + intros g Hg.
      destruct (gpuSafe_flat_map (fun t => trace (buildingItem cam t)) (tiles (objects p))
                  (buildingItem_gpuSafe cam) g Hg) as (g' & Rg & _ & Hd).
      exists g'. now split.
  - match goal with
    | |- gpuSafe _ _ (?a :: ?b :: ?c :: ?d :: ?e :: ?t) =>
        change (a :: b :: c :: d :: e :: t) with ([a; b; c; d; e] ++ t)
    end.
    apply gpuSafe_app with (J := gpuCleanWith huggingMeshMaterial).
    + gpu_item.
    + intros g Hg.
      destruct (gpuSafe_flat_map
                  (fun t => trace (huggingItem (terrain (objects p)) cam t))
                  (tiles (objects p))
                  (huggingItem_gpuSafe (terrain (objects p)) cam) g Hg)
        as (g' & Rg & _ & Hd).
      exists g'. now split.
Qed.

Lemma renderCascade_gpuSafe (i : nat) (cam : CSMCascadeCamera) :
  gpuSafe gpuClean gpuClean (trace (renderCascade p i cam)).
Proof.
  destruct (helpers_gpuSafe cam) as [[SI SA] [SB SH]].
  unfold renderCascade.
  apply gpuSafe_bind; [apply gpuSafe_marker; now left |].
  apply gpuSafe_bind; [apply gpuSafe_marker; now right |].
  apply gpuSafe_bind; [| now apply gpuSafe_bind].
  destruct (i <? 2)%nat; [now apply gpuSafe_bind | apply gpuSafe_nil].
Qed.

(** X3: in a frame, whether it runs to its end or raises, every [draw()]
    happens with a material in use none of whose uniform blocks has been
    written since its last flush, and no block is left unflushed when the
    frame stops. *)
Theorem render_draws_after_flush :
  exists g, gpuRun gpuIdle (trace (render p)) = Some g /\ gpu_dirty g = [].
Proof.
  assert (S : forall cams i, gpuSafe gpuClean gpuClean (trace (renderFrom p i cams))).
  { induction cams as [| cam rest IH]; intros i; cbn [renderFrom].
    - apply gpuSafe_nil.
    - apply gpuSafe_bind; [apply renderCascade_gpuSafe | apply IH]. }
  apply (S (cascadeCameras (passCsm p)) 0%nat gpuIdle). reflexivity.
Qed.

End GpuFacts.

(** The reading [gpuRun] does refuse traces: a draw without a material, and
    a draw after a write that was not flushed. *)
Lemma gpuRun_refuses :
  gpuRun gpuIdle [Draw 1] = None /\
  gpuRun gpuIdle
    [UseMaterial buildingDepthMaterial;
     SetUniform buildingDepthMaterial "modelViewMatrix" (Some "PerMesh") (UMat4 2%Z);
     Draw 1] = None /\
  gpuRun gpuIdle
    [UseMaterial buildingDepthMaterial;
     SetUniform buildingDepthMaterial "modelViewMatrix" (Some "PerMesh") (UMat4 2%Z);
     UpdateUniformBlock buildingDepthMaterial "PerMaterial";
     Draw 1] = None.
Proof. repeat split. Qed.

(** ** The draws of a frame *)

Section FrameDraws.
Context {NM : Numerics}.

Lemma drawnWith_app (t1 t2 : Trace) (cur : option Material) :
  exists cur', drawnWith cur (t1 ++ t2) = drawnWith cur t1 ++ drawnWith cur' t2.
Proof.
  revert cur. induction t1 as [| c t1 IH]; intros cur; cbn [app].
  - now exists cur.
  - destruct c; cbn [drawnWith];
      try (destruct (IH cur) as [cur' ->]; now exists cur').
    + destruct (IH (Some m)) as [cur' ->]. now exists cur'.
Qed.

(** Commands that bind nothing draw with the material in use before
    them. *)
Lemma drawnWith_quiet (t : Trace) (cur : option Material) :
  count isAnyBind t = 0%nat ->
  drawnWith cur t = map (fun id => (cur, id)) (drawn t).
Proof.
  unfold count. induction t as [| c t IH]; cbn; [reflexivity |].
  destruct c; cbn; intros H; try discriminate; now rewrite ?IH.
Qed.

Lemma aircraft_drawnWith (cam : CSMCascadeCamera) (acs : list Aircraft)
    (cur : option Material) :
  drawnWith cur (flat_map (fun a => trace (aircraftItem cam a)) acs) =
    withMaterial aircraftMaterial (flat_map flyingMesh acs).
Proof.
  revert cur. induction acs as [| a acs IH]; intros cur; [reflexivity |].
  cbn [flat_map]. unfold aircraftItem at 1, flyingMesh at 1.
  destruct (ac_mesh a) as [m |]; [destruct (0 <? instanceCount m) |];
    cbn [trace fst app drawnWith ret emit bind]; unfold withMaterial in *;
    cbn [map app]; now rewrite IH.
Qed.

Variable p : Pass.

Lemma helpers_drawnWith (cam : CSMCascadeCamera) (cur : option Material) :
  drawnWith cur (trace (renderAircraft p cam)) =
    withMaterial aircraftMaterial (flat_map flyingMesh (instancedAircraft (objects p))) /\
  drawnWith cur (trace (renderBuildings p cam)) =
    withMaterial buildingDepthMaterial
      (flat_map (fun t => visibleMesh (extrudedMesh t) cam) (tiles (objects p))) /\
  drawnWith cur (trace (renderHuggingMeshes p cam)) =
    withMaterial huggingMeshMaterial
      (flat_map (fun t => visibleMesh (huggingMesh t) cam) (tiles (objects p))).
Proof.
  rewrite renderAircraft_unfold, renderBuildings_unfold, renderHuggingMeshes_unfold.
  cbn [trace fst drawnWith]. split; [apply aircraft_drawnWith |]. split.
  - rewrite drawnWith_quiet.
    + unfold withMaterial. f_equal. apply drawn_flat_map.
      intros; apply buildingItem_drawn.
    + apply count_flat_map_quiet. intros t. apply buildingItem_quiet.
  - rewrite drawnWith_quiet.
    + unfold withMaterial. f_equal. apply drawn_flat_map.
      intros; apply huggingItem_drawn.
    + apply count_flat_map_quiet. intros t. apply huggingItem_quiet.
Qed.

Lemma renderCascade_drawnWith (i : nat) (cam : CSMCascadeCamera) (cur : option Material) :
  completes (renderCascade p i cam) = true ->
  drawnWith cur (trace (renderCascade p i cam)) = cascadeDraws p i cam.
Proof.
  intros C. rewrite (renderCascade_trace _ _ _ C). cbn [drawnWith].
  rewrite renderCascade_completes in C. unfold cascadeDraws.
  match goal with
  | |- drawnWith _ (?a ++ ?b) = _ => destruct (drawnWith_app a b cur) as [c1 ->]
  end.
  destruct (drawnWith_app (trace (renderBuildings p cam))
              (trace (renderHuggingMeshes p cam)) c1) as [c2 ->].
  destruct (helpers_drawnWith cam c1) as (_ & -> & _).
  destruct (helpers_drawnWith cam c2) as (_ & _ & ->).
  f_equal. revert C. destruct (i <? 2)%nat; intros C; [| reflexivity].
  destruct (drawnWith_app (trace (renderInstances p cam))
              (trace (renderAircraft p cam)) cur) as [c3 ->].
  destruct (helpers_drawnWith cam c3) as (-> & _ & _). f_equal.
  rewrite renderInstances_unfold. cbn [trace fst drawnWith].
  rewrite forEach_trace.
  - now apply instances_drawnWith.
  - now rewrite forEach_completes, <- C; clear;
      induction (instancedObjects (objects p)) as [| e l IH]; cbn [forallb];
      [| rewrite instanceItem_completes, IH].
Qed.

(** X4: the draws of a frame that runs to its end, with the material in use
    at each: cascade after cascade, and within a cascade the instanced
    objects in the order of the registry, each with the material of its
    name, then the aircraft that have instances with the aircraft material
    (both for the first two cascades only), then the extruded meshes and
    then the hugging meshes the cascade's camera sees, with their two
    materials. *)
Theorem frame_draws :
  completes (render p) = true ->
  drawnWith None (trace (render p)) = frameDraws p 0 (cascadeCameras (passCsm p)).
Proof.
  unfold render. generalize (@None Material) as cur. generalize 0%nat as i.
  induction (cascadeCameras (passCsm p)) as [| cam rest IH]; intros i cur C;
    [reflexivity |].
  cbn [renderFrom frameDraws] in *. rewrite completes_bind in C.
  apply andb_prop in C as [Cc Cr].
  rewrite bind_completes by exact Cc. cbn [trace fst].
  destruct (drawnWith_app (trace (renderCascade p i cam))
              (trace (renderFrom p (S i) rest)) cur) as [cur' ->].
  now rewrite (renderCascade_drawnWith _ _ cur Cc), (IH (S i) cur' Cr).
Qed.

End FrameDraws.

(** * Further facts about the settings *)

Section SettingsAndFrame.
Context {NM : Numerics}.
Variable updateCascades : CSM -> CSM.
Hypothesis keeps : keepsConfig updateCascades.

Local Abbreviation handler := (shadowsHandler updateCascades).

Lemma handler_tier (v : string) (p : Pass) :
  config (passCsm (handler v p)) = tierOf v /\
  shadowMaps (handler v p) =
    {| width := snd (fst (tierOf v)); height := snd (fst (tierOf v));
       depth := fst (fst (tierOf v)) |}.
Proof.
  pose proof (@handler_config _ updateCascades v p keeps) as E.
  fold (tierOf v) in E. split; [exact E |].
  rewrite handler_descriptor. unfold config in E. rewrite <- E. reflexivity.
Qed.

(** X5: what a notification leaves behind depends on the value notified
    only, not on the pass it arrives at: the configuration and the
    descriptor are the same from any two passes, so the last of two
    notifications alone decides. *)
Theorem handler_forgets_history (v v' : string) (p q : Pass) :
  (config (passCsm (handler v p)) = config (passCsm (handler v q)) /\
   shadowMaps (handler v p) = shadowMaps (handler v q)) /\
  (config (passCsm (handler v (handler v' p))) = config (passCsm (handler v p)) /\
   shadowMaps (handler v (handler v' p)) = shadowMaps (handler v p)).
Proof.
  destruct (handler_tier v p) as [-> ->], (handler_tier v q) as [-> ->],
    (handler_tier v (handler v' p)) as [-> ->].
  repeat split.
Qed.

Lemma handler_scene (v : string) (p : Pass) :
  tiles (objects (handler v p)) = tiles (objects p) /\
  terrain (objects (handler v p)) = terrain (objects p) /\
  instancedObjects (objects (handler v p)) = instancedObjects (objects p) /\
  instancedAircraft (objects (handler v p)) = instancedAircraft (objects p) /\
  terrainRingHeight (handler v p) = terrainRingHeight p.
Proof.
  unfold shadowsHandler.
  destruct (String.eqb v "low"); [| destruct (String.eqb v "medium")]; repeat split.
Qed.

(** X6: in every state the pass goes through, the configuration and the
    descriptor are those of one of the three tiers together: one layer of
    2048 by 2048, three of 2048 by 2048 or three of 4096 by 4096; and the
    tiles, the terrain, the instanced objects, the aircraft and the
    ring-height input are those the pass was built with. *)
Theorem reachable_states_are_tiers (p0 p : Pass) :
  reachable updateCascades p0 p ->
  ((config (passCsm p) = (1, 2048, 3000) /\
    shadowMaps p = {| width := 2048; height := 2048; depth := 1 |}) \/
   (config (passCsm p) = (3, 2048, 4000) /\
    shadowMaps p = {| width := 2048; height := 2048; depth := 3 |}) \/
   (config (passCsm p) = (3, 4096, 5000) /\
    shadowMaps p = {| width := 4096; height := 4096; depth := 3 |})) /\
  tiles (objects p) = tiles (objects p0) /\
  terrain (objects p) = terrain (objects p0) /\
  instancedObjects (objects p) = instancedObjects (objects p0) /\
  instancedAircraft (objects p) = instancedAircraft (objects p0) /\
  terrainRingHeight p = terrainRingHeight p0.
Proof.
  assert (T : forall v q,
             (config (passCsm (handler v q)) = (1, 2048, 3000) /\
              shadowMaps (handler v q) = {| width := 2048; height := 2048; depth := 1 |}) \/
             (config (passCsm (handler v q)) = (3, 2048, 4000) /\
              shadowMaps (handler v q) = {| width := 2048; height := 2048; depth := 3 |}) \/
             (config (passCsm (handler v q)) = (3, 4096, 5000) /\
              shadowMaps (handler v q) = {| width := 4096; height := 4096; depth := 3 |})).
  { intros v q. destruct (handler_tier v q) as [-> ->]. unfold tierOf.
    destruct (String.eqb v "low"); [| destruct (String.eqb v "medium")]; cbn; auto. }
  intros Hr. induction Hr as [current | q v Hq IH];
    unfold listenToSettings, settingsChanged.
  - split; [apply T | apply handler_scene].
  - split; [apply T |].
    destruct (handler_scene v q) as (-> & -> & -> & -> & ->). apply IH.
Qed.

(** *** The slices a frame assigns *)

Lemma slices_app (t1 t2 : Trace) : slices (t1 ++ t2) = slices t1 ++ slices t2.
Proof.
  induction t1 as [| c t1 IH]; cbn; [reflexivity |].
  destruct c; cbn; now rewrite ?IH.
Qed.

Lemma slices_none (t : Trace) :
  forallb (fun c => negb (isSlice c)) t = true -> slices t = [].
Proof.
  induction t as [| c t IH]; cbn; [reflexivity |].
  intros H. apply andb_prop in H as [Hc Ht].
  destruct c; cbn in *; try discriminate; now apply IH.
Qed.

(** A turn of the loop assigns its own index and no other, whether or not it
    raises. *)
Lemma renderCascade_slices (p : Pass) (i : nat) (cam : CSMCascadeCamera) :
  slices (trace (renderCascade p i cam)) = [i].
Proof.
  destruct (helpers_noSlice p cam) as [[NI NA] [NB NH]].
  destruct (completes (renderCascade p i cam)) eqn:C.
  - rewrite (renderCascade_trace _ _ _ C). cbn [slices].
    rewrite !slices_app, (slices_none _ NB), (slices_none _ NH).
    destruct (i <? 2)%nat; [| reflexivity].
    now rewrite slices_app, (slices_none _ NI), (slices_none _ NA).
  - destruct (renderCascade_trace_raises _ _ _ C) as [_ ->]. cbn [slices].
    now rewrite (slices_none _ NI).
Qed.

Lemma renderFrom_slices_bound (p : Pass) (cams : list CSMCascadeCamera) (i : nat) :
  Forall (fun j => (i <= j < i + List.length cams)%nat)
    (slices (trace (renderFrom p i cams))) /\
  (completes (renderFrom p i cams) = true ->
   slices (trace (renderFrom p i cams)) = seq i (List.length cams)).
Proof.
  revert i. induction cams as [| cam rest IH]; intros i; cbn [renderFrom].
  - split; [constructor | reflexivity].
  - destruct (IH (S i)) as [IHb IHc].
    destruct (completes (renderCascade p i cam)) eqn:C.
    + rewrite completes_bind, C. cbn [andb].
      rewrite bind_completes by exact C. cbn [trace fst].
      rewrite slices_app, renderCascade_slices. cbn [app List.length seq]. split.
      * constructor; [lia |].
        eapply Forall_impl; [| exact IHb]. cbn. intros j Hj. lia.
      * intros Cr. now rewrite IHc.
    + rewrite completes_bind, C. cbn [andb].
      destruct (@bind_raises _ _ _ (renderCascade p i cam) (renderFrom p (S i) rest) C)
        as [-> Cf].
      rewrite renderCascade_slices. cbn [List.length]. split.
      * constructor; [lia | constructor].
      * discriminate.
Qed.

Hypothesis cameras : oneCameraPerCascade updateCascades.

Lemma reachable_camera_count (p0 p : Pass) :
  reachable updateCascades p0 p ->
  List.length (cascadeCameras (passCsm p)) = Z.to_nat (depth (shadowMaps p)).
Proof.
  intros Hr.
  assert (D : depth (shadowMaps p) = cascades (passCsm p)).
  { apply (reachable_matches Hr). }
  rewrite D. clear D.
  destruct Hr as [current | q v _]; unfold listenToSettings, settingsChanged.
  - destruct (handler_csm updateCascades current p0) as (c & r & f & -> & _).
    rewrite cameras. f_equal. symmetry.
    pose proof (keeps (set_far f (set_resolution r (set_cascades c (passCsm p0))))) as K.
    unfold config in K. now injection K.
  - destruct (handler_csm updateCascades v q) as (c & r & f & -> & _).
    rewrite cameras. f_equal. symmetry.
    pose proof (keeps (set_far f (set_resolution r (set_cascades c (passCsm q))))) as K.
    unfold config in K. now injection K.
Qed.

(** X7: in every state the pass goes through, each slice index a frame
    assigns is below the depth of the ShadowMaps descriptor, and a frame that
    runs to its end assigns the slices 0 to depth - 1, each once, in
    order. *)
Theorem slices_within_descriptor_depth (p0 p : Pass) :
  reachable updateCascades p0 p ->
  Forall (fun i => Z.of_nat i < depth (shadowMaps p)) (slices (trace (render p))) /\
  (completes (render p) = true ->
   slices (trace (render p)) = seq 0 (Z.to_nat (depth (shadowMaps p)))).
Proof.
  intros Hr. pose proof (reachable_camera_count Hr) as L.
  unfold render.
  destruct (renderFrom_slices_bound p (cascadeCameras (passCsm p)) 0) as [B C].
  rewrite L in *. split; [| exact C].
  eapply Forall_impl; [| exact B]. cbn. intros j Hj. lia.
Qed.

(** X8: how the value notified shapes the frame that follows, when it runs
    to its end: after 'low' a single cascade, which enters all four helpers;
    after any other value three cascades, the first two entering all four
    helpers and the third the building and hugging-mesh helpers only. *)
Theorem frame_after_notification (v : string) (p : Pass) :
  completes (render (shadowsHandler updateCascades v p)) = true ->
  categoriesBySlice (trace (render (shadowsHandler updateCascades v p))) =
    if String.eqb v "low" then [(0%nat, fourCategories)]
    else [(0%nat, fourCategories); (1%nat, fourCategories);
          (2%nat, [CatBuildings; CatHuggingMeshes])].
Proof.
  intros C. unfold render in *. rewrite (renderFrom_slices _ _ _ C).
  assert (L : List.length (cascadeCameras (passCsm (handler v p))) =
              Z.to_nat (fst (fst (tierOf v)))).
  { pose proof (reachable_camera_count (reach_construct updateCascades p v)) as L0.
    unfold listenToSettings in L0. rewrite L0.
    destruct (handler_tier v p) as [_ ->]. reflexivity. }
  rewrite L. unfold tierOf.
  destruct (String.eqb v "low"); [| destruct (String.eqb v "medium")]; reflexivity.
Qed.

End SettingsAndFrame.

(** * Further facts about the uniforms *)

Section UniformFacts.
Context {NM : Numerics}.
Variable cam : CSMCascadeCamera.

(** A loop whose iterations keep the material in use, draw the expected
    meshes with the expected value of the uniform and keep [P] of the values
    held, does so as a whole. *)
Lemma flat_map_uniformAtDraw (A : Type) (name : string) (m : Material)
    (P : (Material -> option UniformValue) -> Prop) (item : A -> Trace)
    (expected : A -> list (nat * option UniformValue)) (xs : list A) :
  (forall a vals rest, P vals ->
     exists vals',
       uniformAtDraw name (Some m) vals (item a ++ rest) =
         expected a ++ uniformAtDraw name (Some m) vals' rest /\ P vals') ->
  forall vals, P vals ->
    uniformAtDraw name (Some m) vals (flat_map item xs) = flat_map expected xs.
Proof.
  intros H. induction xs as [| a xs IH]; intros vals HP; [reflexivity |].
  cbn [flat_map]. destruct (H a vals (flat_map item xs) HP) as (vals' & -> & HP').
  now rewrite (IH vals' HP').
Qed.

Ltac tile_item sel :=
  let t := fresh "t" in
  let m := fresh "m" in
  intros t ? ? ?; unfold buildingItem, huggingItem, visibleMesh, withValue, modelView;
  destruct (sel t) as [m |]; [destruct (tm_inCameraFrustum m cam) |];
  cbn; eexists; (split; [reflexivity | cbn; auto]).

Lemma buildings_modelView (ts : list Tile) (vals : Material -> option UniformValue) :
  uniformAtDraw "modelViewMatrix" (Some buildingDepthMaterial) vals
    (flat_map (fun t => trace (buildingItem cam t)) ts) =
  flat_map (fun t => withValue (visibleMesh (extrudedMesh t) cam)
                       (modelView cam (tile_matrixWorld t))) ts.
Proof.
  apply flat_map_uniformAtDraw with (P := fun _ => True); [| exact I].
  tile_item (@extrudedMesh NM).
Qed.

Section Hugging.
Variable trn : Terrain.
Variable ts : list Tile.
Variable vals : Material -> option UniformValue.

Local Abbreviation items :=
  (flat_map (fun t => trace (huggingItem trn cam t)) ts).

Local Abbreviation perTile f :=
  (flat_map (fun t => withValue (visibleMesh (huggingMesh t) cam) (f t)) ts).

Lemma hugging_uniforms :
  uniformAtDraw "modelViewMatrix" (Some huggingMeshMaterial) vals items =
    perTile (fun t => modelView cam (tile_matrixWorld t)) /\
  uniformAtDraw "terrainRingSize" (Some huggingMeshMaterial) vals items =
    perTile (fun t => UFloat1 (size (ring0 (getTileParams trn t)))) /\
  uniformAtDraw "terrainRingOffset" (Some huggingMeshMaterial) vals items =
    perTile (fun t =>
      UFloat4 (x (ring0Offset (getTileParams trn t))) (y (ring0Offset (getTileParams trn t)))
              (x (ring1Offset (getTileParams trn t))) (y (ring1Offset (getTileParams trn t)))) /\
  uniformAtDraw "terrainLevelId" (Some huggingMeshMaterial) vals items =
    perTile (fun t => UFloat1 (levelId (getTileParams trn t))) /\
  uniformAtDraw "segmentCount" (Some huggingMeshMaterial) vals items =
    perTile (fun t =>
      UFloat1 (Number_mul (segmentCount (ring0 (getTileParams trn t))) (Number_ofZ 2))).
Proof.
  repeat split;
    (apply flat_map_uniformAtDraw with (P := fun _ => True); [| exact I]);
    tile_item (@huggingMesh NM).
Qed.

(** The iterations leave the ring-height texture as the helper set it. *)
Lemma hugging_ringHeight (v : UniformValue) :
  vals huggingMeshMaterial = Some v ->
  uniformAtDraw "tRingHeight" (Some huggingMeshMaterial) vals items =
    perTile (fun _ => v).
Proof.
  apply flat_map_uniformAtDraw
    with (P := fun vs => vs huggingMeshMaterial = Some v).
  intros t vs rest Hv. unfold huggingItem, visibleMesh, withValue.
  destruct (huggingMesh t) as [m |]; [destruct (tm_inCameraFrustum m cam) |];
    cbn; exists vs; rewrite ?Hv; auto.
Qed.

End Hugging.

Lemma aircraft_modelView (acs : list Aircraft) (cur : option Material)
    (vals : Material -> option UniformValue) :
  uniformAtDraw "modelViewMatrix" cur vals
    (flat_map (fun a => trace (aircraftItem cam a)) acs) =
  flat_map (fun a => withValue (flyingMesh a) (modelView cam (ac_matrixWorld a))) acs.
Proof.
  revert cur vals. induction acs as [| a acs IH]; intros cur vals; [reflexivity |].
  cbn [flat_map]. unfold aircraftItem at 1, flyingMesh at 1, withValue, modelView.
  destruct (ac_mesh a) as [m |]; [destruct (0 <? instanceCount m) |];
    cbn; now rewrite IH.
Qed.

Lemma instances_modelView (ios : list (string * InstancedObject))
    (cur : option Material) (vals : Material -> option UniformValue) :
  forallb hasMesh ios = true ->
  uniformAtDraw "modelViewMatrix" cur vals
    (flat_map (fun e => trace (instanceItem cam e)) ios) =
  flat_map (fun e => withValue (map snd (instanceDraw e))
                       (modelView cam (io_matrixWorld (snd e)))) ios.
Proof.
  revert cur vals. induction ios as [| [name o] ios IH]; intros cur vals H;
    [reflexivity |].
  cbn [forallb] in H. apply andb_prop in H as [Ho Hios].
  unfold hasMesh in Ho. cbn [snd] in Ho.
  destruct (io_mesh o) as [m |] eqn:E; [| discriminate].
  cbn [flat_map]. rewrite (instanceItem_trace cam name _ E).
  unfold instanceDraw at 1, withValue, modelView. cbn [fst snd]. rewrite E.
  unfold instanceMaterialFor. destruct (String.eqb name "tree");
    cbn; now rewrite IH.
Qed.

Variable p : Pass.

(** X9: every mesh a helper draws is drawn while the model-view uniform of
    the material in use holds the product of the camera's inverse world
    matrix by the world matrix of the item the mesh belongs to, in that
    order; whatever the uniforms held before the helper ran (for the
    instanced objects, in a helper that runs to its end). *)
Theorem draws_see_their_modelView (cur : option Material)
    (vals : Material -> option UniformValue) :
  uniformAtDraw "modelViewMatrix" cur vals (trace (renderBuildings p cam)) =
    flat_map (fun t => withValue (visibleMesh (extrudedMesh t) cam)
                         (modelView cam (tile_matrixWorld t))) (tiles (objects p)) /\
  uniformAtDraw "modelViewMatrix" cur vals (trace (renderHuggingMeshes p cam)) =
    flat_map (fun t => withValue (visibleMesh (huggingMesh t) cam)
                         (modelView cam (tile_matrixWorld t))) (tiles (objects p)) /\
  uniformAtDraw "modelViewMatrix" cur vals (trace (renderAircraft p cam)) =
    flat_map (fun a => withValue (flyingMesh a) (modelView cam (ac_matrixWorld a)))
      (instancedAircraft (objects p)) /\
  (completes (renderInstances p cam) = true ->
   uniformAtDraw "modelViewMatrix" cur vals (trace (renderInstances p cam)) =
     flat_map (fun e => withValue (map snd (instanceDraw e))
                          (modelView cam (io_matrixWorld (snd e))))
       (instancedObjects (objects p))).
Proof.
  rewrite renderBuildings_unfold, renderHuggingMeshes_unfold, renderAircraft_unfold.
  cbn [trace fst]. cbn [uniformAtDraw String.eqb Ascii.eqb Bool.eqb].
  split; [apply buildings_modelView |].
  split; [apply hugging_uniforms |].
  split; [apply aircraft_modelView |].
  intros C. rewrite (renderInstances_trace _ _ C). cbn [uniformAtDraw].
  apply instances_modelView. now rewrite <- renderInstances_completes with (cam := cam).
Qed.

(** X10: every hugging mesh is drawn while the uniforms of the hugging-mesh
    material hold the terrain parameters of its own tile: the size of ring 0,
    the offsets of ring 0 and ring 1 in that order, the level id, and twice
    the segment count of ring 0; and while [tRingHeight] holds the texture
    of the TerrainRingHeight input. *)
Theorem hugging_draws_see_their_tile (cur : option Material)
    (vals : Material -> option UniformValue) :
  let trn := terrain (objects p) in
  let perTile f :=
    flat_map (fun t => withValue (visibleMesh (huggingMesh t) cam) (f t))
      (tiles (objects p)) in
  uniformAtDraw "terrainRingSize" cur vals (trace (renderHuggingMeshes p cam)) =
    perTile (fun t => UFloat1 (size (ring0 (getTileParams trn t)))) /\
  uniformAtDraw "terrainRingOffset" cur vals (trace (renderHuggingMeshes p cam)) =
    perTile (fun t =>
      UFloat4 (x (ring0Offset (getTileParams trn t))) (y (ring0Offset (getTileParams trn t)))
              (x (ring1Offset (getTileParams trn t))) (y (ring1Offset (getTileParams trn t)))) /\
  uniformAtDraw "terrainLevelId" cur vals (trace (renderHuggingMeshes p cam)) =
    perTile (fun t => UFloat1 (levelId (getTileParams trn t))) /\
  uniformAtDraw "segmentCount" cur vals (trace (renderHuggingMeshes p cam)) =
    perTile (fun t =>
      UFloat1 (Number_mul (segmentCount (ring0 (getTileParams trn t))) (Number_ofZ 2))) /\
  uniformAtDraw "tRingHeight" cur vals (trace (renderHuggingMeshes p cam)) =
    perTile (fun _ => UTexture (terrainRingHeight p)).
Proof.
  intros trn perTile. subst trn perTile.
  rewrite renderHuggingMeshes_unfold. cbn [trace fst].
  cbn [uniformAtDraw String.eqb Ascii.eqb Bool.eqb].
  split; [apply hugging_uniforms |].
  split; [apply hugging_uniforms |].
  split; [apply hugging_uniforms |].
  split; [apply hugging_uniforms |].
  apply hugging_ringHeight. reflexivity.
Qed.

End UniformFacts.

(** * Further facts about the water mask *)

Section WaterMaskRepeated.
Context {NM : Numerics} {R : Type} {AR : AbstractRenderer R}.

Lemma updateMeshTimes_ready (n : nat) (renderer : R) (w : WaterMask) :
  isMeshReady w = true -> updateMeshTimes n renderer w = (w, renderer).
Proof.
  intros H. induction n as [| n IH]; cbn [updateMeshTimes]; [reflexivity |].
  unfold updateMesh. unfold isMeshReady in H.
  destruct (wm_mesh w); [exact IH | discriminate].
Qed.

Lemma updateMesh_ready (renderer : R) (w : WaterMask) :
  isMeshReady (fst (updateMesh renderer w)) = true /\
  verticesBuffer (fst (updateMesh renderer w)) = verticesBuffer w.
Proof.
  unfold updateMesh, isMeshReady. destruct (wm_mesh w) as [m |] eqn:E.
  - cbn [fst]. now rewrite E.
  - destruct (createAttribute (positionAttribute w) renderer) as [attribute r1].
    destruct (createMesh [attribute] r1) as [mesh r2]. now cbn.
Qed.

(** X11: any number of calls of [updateMesh] in a row, one at least, leaves
    the mask and the renderer as the first call left them, so the renderer
    creates at most one mesh for a mask; the vertices buffer is never
    changed, and the mesh is ready after them. *)
Theorem updateMesh_repeated (n : nat) (renderer : R) (w : WaterMask) :
  updateMeshTimes (S n) renderer w = updateMesh renderer w /\
  verticesBuffer (fst (updateMeshTimes n renderer w)) = verticesBuffer w /\
  isMeshReady (fst (updateMeshTimes (S n) renderer w)) = true.
Proof.
  assert (F : forall r w', updateMeshTimes (S n) r w' = updateMesh r w').
  { intros r w'. cbn [updateMeshTimes].
    destruct (updateMesh_ready r w') as [Rdy _].
    destruct (updateMesh r w') as [w1 r1]. now apply updateMeshTimes_ready. }
  split; [apply F |]. split.
  - destruct n as [| k]; [reflexivity |].
    clear F. revert renderer w. induction k as [| k IH]; intros renderer w.
    + cbn [updateMeshTimes]. destruct (updateMesh_ready renderer w) as [_ V].
      now destruct (updateMesh renderer w).
    + change (updateMeshTimes (S (S k)) renderer w)
        with (let (w', r') := updateMesh renderer w in updateMeshTimes (S k) r' w').
      destruct (updateMesh_ready renderer w) as [_ V].
      destruct (updateMesh renderer w) as [w1 r1]. cbn [fst] in V.
      now rewrite IH.
  - rewrite F. apply updateMesh_ready.
Qed.

End WaterMaskRepeated.

(** * What the helper of the instanced objects does before it raises *)

Section PartialInstances.
Context {NM : Numerics}.
Variable p : Pass.
Variable cam : CSMCascadeCamera.

Lemma forEach_instances_partial (ios : list (string * InstancedObject))
    (cur : option Material) :
  drawnWith cur (trace (forEach ios (instanceItem cam))) =
    flat_map instanceDraw (beforeMeshless ios) /\
  count isAnyBind (trace (forEach ios (instanceItem cam))) =
    (List.length (beforeMeshless ios) + (if forallb hasMesh ios then 0 else 1))%nat.
Proof.
  revert cur. induction ios as [| [name o] ios IH]; intros cur; [now split |].
  cbn [forEach beforeMeshless forallb].
  pose proof (instanceItem_completes cam (name, o)) as C.
  destruct (io_mesh o) as [m |] eqn:E.
  - assert (Hm : hasMesh (name, o) = true).
    { unfold hasMesh. cbn [snd]. now rewrite E. }
    rewrite Hm in *. rewrite bind_completes by exact C.
    rewrite (instanceItem_trace cam name _ E).
    cbn [trace fst app drawnWith flat_map andb List.length].
    unfold instanceDraw at 1. cbn [fst snd]. rewrite E.
    destruct (IH (Some (instanceMaterialFor name))) as [-> Hc].
    split; [reflexivity |].
    change (?a :: ?b :: ?c :: ?d :: ?e :: ?t) with ([a; b; c; d; e] ++ t).
    rewrite count_app, Hc. reflexivity.
  - assert (Hm : hasMesh (name, o) = false).
    { unfold hasMesh. cbn [snd]. now rewrite E. }
    rewrite Hm in *.
    destruct (@bind_raises _ _ _ (instanceItem cam (name, o))
                (forEach ios (instanceItem cam)) C) as [-> _].
    unfold instanceItem. rewrite E. now split.
Qed.

(** X12: whether or not it raises, the helper of the instanced objects draws
    the entries that come before the first entry without a mesh, in order,
    each with the material of its name, and nothing after; it binds a
    material once for each of them and once more for the entry it raises
    on. *)
Theorem instances_drawn_until_meshless :
  drawnWith None (trace (renderInstances p cam)) =
    flat_map instanceDraw (beforeMeshless (instancedObjects (objects p))) /\
  count isAnyBind (trace (renderInstances p cam)) =
    (List.length (beforeMeshless (instancedObjects (objects p))) +
     (if completes (renderInstances p cam) then 0 else 1))%nat.
Proof.
  rewrite renderInstances_completes, renderInstances_unfold. cbn [trace fst drawnWith].
  destruct (forEach_instances_partial (instancedObjects (objects p)) None) as [-> Hc].
  split; [reflexivity |].
  change (?a :: ?t) with ([a] ++ t). now rewrite count_app, Hc.
Qed.

End PartialInstances.

(** * The further statements on concrete scenes *)

Lemma rebuildCameras_oneCamera : oneCameraPerCascade rebuildCameras.
Proof. intros c. cbn. apply repeat_length. Defined.

Lemma render_raises_in_first_cascade_witness :
  completes (render (sceneWith [cam0; cam1] [houseTile]
                       [("tree", rock 5); ("rock", meshlessObject)] [plane 8 2])) = false /\
  categoriesBySlice
    (trace (render (sceneWith [cam0; cam1] [houseTile]
                      [("tree", rock 5); ("rock", meshlessObject)] [plane 8 2]))) =
    [(0%nat, [CatInstances])].
Proof.
  destruct (render_raises_in_first_cascade
              (sceneWith [cam0; cam1] [houseTile]
                 [("tree", rock 5); ("rock", meshlessObject)] [plane 8 2]) eq_refl)
    as (cam & rest & _ & _ & S & _).
  split; [reflexivity | exact S].
Defined.

Lemma frame_draws_witness :
  completes (render (sceneWith [cam0; cam1; cam2] [houseTile; emptyTile]
                       [("tree", rock 5); ("rock", rock 7)] [plane 8 2; plane 9 0])) = true /\
  drawnWith None
    (trace (render (sceneWith [cam0; cam1; cam2] [houseTile; emptyTile]
                      [("tree", rock 5); ("rock", rock 7)] [plane 8 2; plane 9 0]))) =
    [(Some treeMaterial, 5%nat); (Some instanceMaterial, 7%nat);
     (Some aircraftMaterial, 8%nat);
     (Some buildingDepthMaterial, 1%nat); (Some huggingMeshMaterial, 2%nat);
     (Some treeMaterial, 5%nat); (Some instanceMaterial, 7%nat);
     (Some aircraftMaterial, 8%nat)].
Proof.
  split; [reflexivity |].
  exact (frame_draws
           (sceneWith [cam0; cam1; cam2] [houseTile; emptyTile]
              [("tree", rock 5); ("rock", rock 7)] [plane 8 2; plane 9 0]) eq_refl).
Defined.

Lemma handler_forgets_history_witness :
  keepsConfig rebuildCameras /\
  shadowMaps (shadowsHandler rebuildCameras "low"
                (shadowsHandler rebuildCameras "high" blankPass)) =
    shadowMaps (shadowsHandler rebuildCameras "low" blankPass).
Proof.
  split; [exact rebuildCameras_keepsConfig |].
  exact (proj2 (proj2 (handler_forgets_history rebuildCameras_keepsConfig
                         "low" "high" blankPass blankPass))).
Defined.

Lemma reachable_states_are_tiers_witness :
  reachable rebuildCameras (sceneWith [cam0] [houseTile] [("tree", rock 5)] [plane 8 2])
    (settingsChanged rebuildCameras "medium"
       (listenToSettings rebuildCameras "low"
          (sceneWith [cam0] [houseTile] [("tree", rock 5)] [plane 8 2]))) /\
  tiles (objects
           (settingsChanged rebuildCameras "medium"
              (listenToSettings rebuildCameras "low"
                 (sceneWith [cam0] [houseTile] [("tree", rock 5)] [plane 8 2])))) =
    [houseTile].
Proof.
  assert (Hr : reachable rebuildCameras
                 (sceneWith [cam0] [houseTile] [("tree", rock 5)] [plane 8 2])
                 (settingsChanged rebuildCameras "medium"
                    (listenToSettings rebuildCameras "low"
                       (sceneWith [cam0] [houseTile] [("tree", rock 5)] [plane 8 2])))).
  { apply reach_change, reach_construct. }
  split; [exact Hr |].
  exact (proj1 (proj2 (reachable_states_are_tiers rebuildCameras_keepsConfig Hr))).
Defined.

Lemma slices_within_descriptor_depth_witness :
  reachable rebuildCameras (sceneWith [] [houseTile] [("tree", rock 5)] [])
    (listenToSettings rebuildCameras "high"
       (sceneWith [] [houseTile] [("tree", rock 5)] [])) /\
  slices (trace (render (listenToSettings rebuildCameras "high"
                           (sceneWith [] [houseTile] [("tree", rock 5)] [])))) =
    [0%nat; 1%nat; 2%nat].
Proof.
  assert (Hr : reachable rebuildCameras (sceneWith [] [houseTile] [("tree", rock 5)] [])
                 (listenToSettings rebuildCameras "high"
                    (sceneWith [] [houseTile] [("tree", rock 5)] []))).
  { apply reach_construct. }
  split; [exact Hr |].
  exact (proj2 (slices_within_descriptor_depth rebuildCameras_keepsConfig
                  rebuildCameras_oneCamera Hr) eq_refl).
Defined.

Lemma frame_after_notification_witness :
  completes (render (shadowsHandler rebuildCameras "low"
                       (sceneWith [] [houseTile] [("tree", rock 5)] [plane 8 2]))) = true /\
  categoriesBySlice
    (trace (render (shadowsHandler rebuildCameras "low"
                      (sceneWith [] [houseTile] [("tree", rock 5)] [plane 8 2])))) =
    [(0%nat, fourCategories)].
Proof.
  split; [reflexivity |].
  exact (frame_after_notification rebuildCameras_keepsConfig rebuildCameras_oneCamera
           "low" (sceneWith [] [houseTile] [("tree", rock 5)] [plane 8 2]) eq_refl).
Defined.

(** C3, the code at three cascade cameras and an instanced object without a
    mesh: the frame stops in cascade 0 inside the helper of the instanced
    objects, so cascade 0 enters neither the aircraft helper nor the building
    and hugging-mesh helpers, and cascades 1 and 2 are never begun. *)
Theorem meshless_frame_breaks_category_policy :
  completes (render (sceneWith [cam0; cam1; cam2] [houseTile]
                       [("rock", meshlessObject)] [plane 8 2])) = false /\
  categoriesBySlice
    (trace (render (sceneWith [cam0; cam1; cam2] [houseTile]
                      [("rock", meshlessObject)] [plane 8 2]))) =
    [(0%nat, [CatInstances])] /\
  drawn (trace (render (sceneWith [cam0; cam1; cam2] [houseTile]
                          [("rock", meshlessObject)] [plane 8 2]))) = [].
Proof. repeat split. Qed.
